(** * SeqFISH.ipynb: the notebook of kne42/starfish, its syntax and its meaning

    The repository is one Jupyter notebook, [notebooks/SeqFISH.ipynb].  This
    development has three layers.

    - The code cells, transcribed statement by statement into a small Python
      syntax tree ([expr], [stmt], [cell]), with analyses over it: which calls a
      statement makes and what they resolve to, which names it defines and
      uses, whether it branches, loops, handles exceptions or declares
      functions.
    - A control semantics of statement lists with exceptions, parametric in
      what the simple statements do, used for the statements about exception
      propagation.
    - The cells' computation on image stacks and decoded tables, written as
      state-passing functions over a heap of arrays (image stacks are mutable
      objects reached through references), with IEEE comparison on pixel
      values. *)

From Stdlib Require Import ZArith Bool Ascii String List Sorted Lia.
From Stdlib Require Import Floats.SpecFloat.
From stdpp Require Import base option list gmap strings.

Local Open Scope Z_scope.

#[local] Set Warnings "-register-all".

(** ** Python syntax, as far as a notebook cell can use it *)

Inductive cmpop := CmpLt | CmpLtE | CmpGt | CmpGtE | CmpEq | CmpNotEq.

Inductive binop := Add | Sub | Mult | Div | FloorDiv | Mod | Pow.

Inductive expr :=
| Name (x : string)
| Attr (e : expr) (attribute : string)
| Call (f : expr) (args : list expr) (kwargs : list (string * expr))
| Subscript (e : expr) (index : expr)
| Slice (lower upper step : option expr)
| Starred (e : expr)
| Compare (l : expr) (op : cmpop) (r : expr)
| BinOp (l : expr) (op : binop) (r : expr)
| Lambda (params : list string) (body : expr)
| TupleE (items : list expr)
| SetE (items : list expr)
| Str (s : string)
| Int (z : Z)
| Decimal (digits : Z) (exponent : Z)  (* digits * 10^exponent: 0.7 is [Decimal 7 (-1)] *)
| BoolE (b : bool).

Inductive stmt :=
| Magic (line : string)                          (* an IPython line magic *)
| Import (module : string)                       (* import a.b: binds a *)
| ImportAs (module : string) (asname : string)
| ImportFrom (module : string) (names : list string)
| Assign (target : expr) (value : expr)
| ExprStmt (e : expr)
| Raise (e : expr)
| Return (e : expr)
| If (cond : expr) (body orelse : list stmt)
| While (cond : expr) (body : list stmt)
| For (target iter : expr) (body : list stmt)
| Try (body : list stmt) (handlers : list (expr * list stmt))
| With (context : expr) (body : list stmt)
| FunctionDef (name : string) (params : list string) (body : list stmt)
| ClassDef (name : string) (body : list stmt).

Inductive cell :=
| Markdown (source : list string)
| Code (line : nat) (body : list stmt).   (* [line]: where the cell's source starts in the .ipynb *)

(** ** The notebook *)

Module SeqFISH.

(** Dotted names are spelled out as nested attribute accesses. *)
Definition display_callee : expr := Attr (Name "starfish") "display".
Definition starfish_image_Filter (cls : string) : expr :=
  Attr (Attr (Attr (Name "starfish") "image") "Filter") cls.
Definition exp_codebook : expr := Attr (Name "exp") "codebook".
Definition xarray_values (x : string) : expr := Attr (Attr (Name x) "xarray") "values".

(* line 16 *)
Definition cell_imports : list stmt :=
  [ Magic "gui qt";
    Import "os";
    ImportFrom "copy" ["deepcopy"];
    ImportFrom "itertools" ["product"];
    ImportAs "numpy" "np";
    ImportAs "pandas" "pd";
    Import "skimage.filters";
    Import "skimage.morphology";
    ImportFrom "skimage.transform" ["SimilarityTransform"; "warp"];
    ImportFrom "tqdm" ["tqdm"];
    Import "starfish";
    Import "starfish.data";
    ImportFrom "starfish.spots" ["DetectSpots"];
    ImportFrom "starfish.types" ["Axes"] ].

(* line 48: exp = starfish.data.SeqFISH(use_test_data=True) *)
Definition cell_experiment : list stmt :=
  [ Assign (Name "exp")
      (Call (Attr (Attr (Name "starfish") "data") "SeqFISH") []
            [("use_test_data", BoolE true)]) ].

(* line 57: img = exp['fov_000'].get_image('primary') *)
Definition cell_image : list stmt :=
  [ Assign (Name "img")
      (Call (Attr (Subscript (Name "exp") (Str "fov_000")) "get_image")
            [Str "primary"] []) ].

(* line 87 *)
Definition cell_morphology_imports : list stmt :=
  [ ImportFrom "skimage.morphology" ["opening"; "dilation"; "disk"];
    ImportFrom "functools" ["partial"] ].

(* line 104 *)
Definition cell_background : list stmt :=
  [ Assign (Name "opening")
      (Call (Name "partial") [Name "opening"]
            [("selem", Call (Name "disk") [Int 3] [])]);
    Assign (Name "background")
      (Call (Attr (Name "img") "apply") [Name "opening"]
            [("group_by", SetE [Attr (Name "Axes") "ROUND";
                                Attr (Name "Axes") "CH";
                                Attr (Name "Axes") "ZPLANE"]);
             ("verbose", BoolE false);
             ("in_place", BoolE false)]);
    ExprStmt (Call display_callee [Name "background"] []) ].

(* line 120 *)
Definition cell_white_tophat : list stmt :=
  [ Assign (Name "wth")
      (Call (starfish_image_Filter "WhiteTophat") [] [("masking_radius", Int 3)]);
    Assign (Name "background_corrected")
      (Call (Attr (Name "wth") "run") [Name "img"] [("in_place", BoolE false)]);
    ExprStmt (Call display_callee [Name "background_corrected"] []) ].

(* line 140 *)
Definition cell_clip : list stmt :=
  [ Assign (Name "clip")
      (Call (starfish_image_Filter "Clip") []
            [("p_max", Decimal 999 (-1));
             ("expand_dynamic_range", BoolE true);
             ("is_volume", BoolE true)]);
    Assign (Name "scaled")
      (Call (Attr (Name "clip") "run") [Name "background_corrected"]
            [("in_place", BoolE false)]) ].

(* line 150 *)
Definition cell_display_scaled : list stmt :=
  [ ExprStmt (Call display_callee [Name "scaled"] []) ].

(* line 168 *)
Definition cell_residual : list stmt :=
  [ ImportFrom "copy" ["deepcopy"];
    Assign (Name "clipped") (Call (Name "deepcopy") [Name "scaled"] []);
    Assign (Subscript (xarray_values "clipped")
                      (Compare (xarray_values "clipped") CmpLt (Decimal 7 (-1))))
           (Int 0) ].

(* line 179 *)
Definition cell_display_clipped : list stmt :=
  [ ExprStmt (Call display_callee [Name "clipped"] []) ].

(* line 197 *)
Definition cell_local_search : list stmt :=
  [ Assign (Name "threshold") (Decimal 5 (-1));
    Assign (Name "lsbd")
      (Call (Attr (Attr (Attr (Name "starfish") "spots") "DetectSpots")
                  "LocalSearchBlobDetector") []
            [("min_sigma", TupleE [Decimal 15 (-1); Decimal 15 (-1); Decimal 15 (-1)]);
             ("max_sigma", TupleE [Int 8; Int 8; Int 8]);
             ("num_sigma", Int 10);
             ("threshold", Name "threshold");
             ("search_radius", Int 7)]);
    Assign (Name "intensities")
      (Call (Attr (Name "lsbd") "run") [Name "clipped"] []);
    Assign (Name "decoded")
      (Call (Attr exp_codebook "decode_per_round_max")
            [Call (Attr (Name "intensities") "fillna") [Int 0] []] []) ].

(* line 216 *)
Definition cell_display_intensities : list stmt :=
  [ ExprStmt (Call display_callee [Name "clipped"; Name "intensities"] []) ].

(* line 232 *)
Definition cell_gaussian : list stmt :=
  [ Assign (Name "glp")
      (Call (starfish_image_Filter "GaussianLowPass") []
            [("sigma", TupleE [Decimal 3 (-1); Int 1; Int 1]);
             ("is_volume", BoolE true)]);
    Assign (Name "blurred")
      (Call (Attr (Name "glp") "run") [Name "clipped"] []) ].

(* line 242 *)
Definition cell_pixel_decoder : list stmt :=
  [ Assign (Name "psd")
      (Call (Attr (Attr (Attr (Name "starfish") "spots") "DetectPixels")
                  "PixelSpotDecoder") []
            [("codebook", exp_codebook);
             ("metric", Str "euclidean");
             ("distance_threshold", Decimal 5 (-1));
             ("magnitude_threshold", Decimal 1 (-1));
             ("min_area", Int 7);
             ("max_area", Int 50)]);
    Assign (TupleE [Name "pixel_decoded"; Name "ccdr"])
      (Call (Attr (Name "psd") "run") [Name "blurred"] []) ].

(* line 255 *)
Definition cell_pyplot : list stmt :=
  [ ImportAs "matplotlib.pyplot" "plt" ].

(* line 264 *)
Definition cell_label_image : list stmt :=
  [ Assign (Name "label_image")
      (Call (Attr (Attr (Name "starfish") "ImageStack") "from_numpy")
            [Call (Attr (Name "np") "reshape")
                  [Attr (Name "ccdr") "decoded_image";
                   TupleE [Int 1; Int 1; Int 29; Int 280; Int 280]] []] []);
    ExprStmt (Call display_callee [Name "label_image"] []) ].

(** [int(np.sum(table['target'] != 'nan'))] *)
Definition count_not_nan (table : string) : expr :=
  Call (Name "int")
       [Call (Attr (Name "np") "sum")
             [Compare (Subscript (Name table) (Str "target")) CmpNotEq (Str "nan")] []] [].

(* line 282 *)
Definition cell_spot_counts : list stmt :=
  [ ExprStmt (Call (Name "print")
                [Str "pixel_decoder spots detected"; count_not_nan "pixel_decoded"] []);
    ExprStmt (Call (Name "print")
                [Str "local search spot detector spots detected"; count_not_nan "decoded"] []) ].

(** [pd.Series] applied to the starred, reversed result of
    [np.unique(table['target'], return_counts=True)]: counts first, labels second *)
Definition gene_counts_of (table : string) : expr :=
  Call (Attr (Name "pd") "Series")
       [Starred
          (Subscript
             (Call (Attr (Name "np") "unique")
                   [Subscript (Name table) (Str "target")]
                   [("return_counts", BoolE true)])
             (Slice None None (Some (Int (-1)))))] [].

(* line 299 *)
Definition cell_correlation : list stmt :=
  [ ImportFrom "scipy.stats" ["pearsonr"];
    Assign (Name "pixel_decoded_gene_counts") (gene_counts_of "pixel_decoded");
    Assign (Name "decoded_gene_counts") (gene_counts_of "decoded");
    Assign (Name "codetected")
      (Call (Attr
               (Call (Attr (Attr (Name "pixel_decoded_gene_counts") "index") "intersection")
                     [Attr (Name "decoded_gene_counts") "index"] [])
               "drop")
            [Str "nan"] []);
    ExprStmt (Call (Name "pearsonr")
                [Subscript (Name "pixel_decoded_gene_counts") (Name "codetected");
                 Subscript (Name "decoded_gene_counts") (Name "codetected")] []) ].

Definition cells : list cell :=
  [ Markdown ["# Starfish SeqFISH Work-in-progress Processing Example"];
    Code 16 cell_imports;
    Markdown ["Select data for a single field of view."];
    Code 48 cell_experiment;
    Code 57 cell_image;
    Markdown ["The first step in SeqFISH is to do some rough registration. For this data, the rough registration has been done for us by the authors, so it is omitted from this notebook."];
    Markdown ["## Remove image background"];
    Markdown ["To remove image background, use a White Tophat filter, which measures the background with a rolling disk morphological element and subtracts it from the image."];
    Code 87 cell_morphology_imports;
    Markdown ["If desired, the background that is being subtracted can be visualized"];
    Code 104 cell_background;
    Code 120 cell_white_tophat;
    Markdown ["## Scale images to equalize spot intensities across channels";
           "";
           "The number of peaks are not uniform across rounds and channels, which prevents histogram matching across channels. Instead, a percentile value is identified and set as the maximum across channels, and the dynamic range is extended to equalize the channel intensities"];
    Code 140 cell_clip;
    Code 150 cell_display_scaled;
    Markdown ["## Remove residual background";
           "";
           "The background is fairly uniformly present below intensity=0.5. However, starfish's clip method currently only supports percentiles. To solve this problem, the intensities can be directly edited in the underlying numpy array."];
    Code 168 cell_residual;
    Code 179 cell_display_clipped;
    Markdown ["## Detect Spots";
           "";
           "Detect spots with a local search blob detector that identifies spots in all rounds and channels and matches them using a local search method. The local search starts in an anchor channel (default ch=1) and identifies the nearest spot in all subsequent imaging rounds."];
    Code 197 cell_local_search;
    Code 216 cell_display_intensities;
    Markdown ["Based on visual inspection, it looks like the spot correspondence across rounds isn't being detected well. Try the PixelSpotDecoder."];
    Code 232 cell_gaussian;
    Code 242 cell_pixel_decoder;
    Code 255 cell_pyplot;
    Code 264 cell_label_image;
    Markdown ["Compare the number of spots being detected by the two spot finders"];
    Code 282 cell_spot_counts;
    Markdown ["Report the correlation between the two methods"];
    Code 299 cell_correlation ].

End SeqFISH.

(** The code cells in execution order, and all their statements. *)
Definition code_cells (nb : list cell) : list (list stmt) :=
  flat_map (fun c => match c with Code _ body => [body] | Markdown _ => [] end) nb.

Definition program (nb : list cell) : list stmt := concat (code_cells nb).

(** ** Analyses of the syntax *)

Definition opt_any (f : expr -> bool) (o : option expr) : bool :=
  match o with Some e => f e | None => false end.

(** [expr_any p e]: [p] holds of [e] or of one of its subexpressions. *)
Fixpoint expr_any (p : expr -> bool) (e : expr) : bool :=
  p e ||
  match e with
  | Name _ | Str _ | Int _ | Decimal _ _ | BoolE _ => false
  | Attr e1 _ | Starred e1 | Lambda _ e1 => expr_any p e1
  | Call f args kwargs =>
      expr_any p f || existsb (expr_any p) args
      || existsb (fun kv => expr_any p (snd kv)) kwargs
  | Subscript e1 e2 | Compare e1 _ e2 | BinOp e1 _ e2 => expr_any p e1 || expr_any p e2
  | Slice a b c => opt_any (expr_any p) a || opt_any (expr_any p) b || opt_any (expr_any p) c
  | TupleE items | SetE items => existsb (expr_any p) items
  end.

(** The expressions a statement itself evaluates, in evaluation order (for an
    assignment the value, then the target), not those of nested statements. *)
Definition stmt_exprs (s : stmt) : list expr :=
  match s with
  | Assign t v => [v; t]
  | ExprStmt e | Raise e | Return e => [e]
  | If c _ _ | While c _ | With c _ => [c]
  | For t i _ => [i; t]
  | Try _ hs => map fst hs
  | Magic _ | Import _ | ImportAs _ _ | ImportFrom _ _
  | FunctionDef _ _ _ | ClassDef _ _ => []
  end.

(** [stmt_any q p s]: [q] holds of [s] or of a statement nested in it, or [p]
    holds somewhere in an expression of one of them. *)
Fixpoint stmt_any (q : stmt -> bool) (p : expr -> bool) (s : stmt) : bool :=
  q s || existsb (expr_any p) (stmt_exprs s) ||
  match s with
  | If _ b1 b2 => existsb (stmt_any q p) b1 || existsb (stmt_any q p) b2
  | While _ b | For _ _ b | With _ b | FunctionDef _ _ b | ClassDef _ b =>
      existsb (stmt_any q p) b
  | Try b hs =>
      existsb (stmt_any q p) b || existsb (fun h => existsb (stmt_any q p) (snd h)) hs
  | _ => false
  end.

(** Statements that declare a callable or a type, expressions that build one. *)
Definition is_def (s : stmt) : bool :=
  match s with FunctionDef _ _ _ | ClassDef _ _ => true | _ => false end.
Definition is_lambda (e : expr) : bool :=
  match e with Lambda _ _ => true | _ => false end.
Definition declares (s : stmt) : bool := stmt_any is_def is_lambda s.

(** Statements that choose, repeat or leave a path. *)
Definition is_control (s : stmt) : bool :=
  match s with
  | If _ _ _ | While _ _ | For _ _ _ | Try _ _ | With _ _ | Raise _ | Return _ => true
  | _ => false
  end.
Definition has_control (s : stmt) : bool := stmt_any is_control (fun _ => false) s.

(** Statements that can intercept an exception (a [with] block's context manager
    may swallow it), and those that raise one of the notebook's own. *)
Definition is_handler (s : stmt) : bool :=
  match s with Try _ _ | With _ _ => true | _ => false end.
Definition is_raise (s : stmt) : bool :=
  match s with Raise _ => true | _ => false end.
Definition handles (s : stmt) : bool := stmt_any is_handler (fun _ => false) s.
Definition raises (s : stmt) : bool := stmt_any is_raise (fun _ => false) s.

(** Simple statements: one step, no nested block. *)
Definition is_simple (s : stmt) : bool :=
  match s with
  | Magic _ | Import _ | ImportAs _ _ | ImportFrom _ _ | Assign _ _ | ExprStmt _ => true
  | _ => false
  end.

Fixpoint assoc {A} (k : string) (table : list (string * A)) : option A :=
  match table with
  | [] => None
  | (k', v) :: rest => if String.eqb k k' then Some v else assoc k rest
  end.

(** *** Resolving what is called and what is stored into

    [qual env e] is the dotted origin of the object [e] denotes: a name bound by
    an import stands for the module or the object imported, a name bound by an
    assignment for the expression assigned, with a pair of parentheses for the
    result of a call and a pair of brackets for an item.  A deep copy has the
    origin of what it copies. *)

Fixpoint top_module (m : string) : string :=
  match m with
  | EmptyString => EmptyString
  | String c rest => if Ascii.eqb c "."%char then EmptyString else String c (top_module rest)
  end.

Fixpoint qual (env : gmap string string) (e : expr) : string :=
  match e with
  | Name x => default x (env !! x)
  | Attr e1 a => qual env e1 +:+ "." +:+ a
  | Call f [a] [] =>
      if String.eqb (qual env f) "copy.deepcopy" then qual env a else qual env f +:+ "()"
  | Call f _ _ => qual env f +:+ "()"
  | Subscript e1 _ => qual env e1 +:+ "[]"
  | _ => "<expr>"
  end.

(** What the notebook asks the interpreter to do, apart from reading names and
    attributes: call something, apply an operator, store into an object. *)
Inductive op :=
| OpCall (callee : string)
| OpCompare (c : cmpop)
| OpArith (b : binop)
| OpStore (object : string).

(** The operations of [e], in the order they happen: a call is made after its
    function position and its arguments are evaluated, an operator is applied
    after its operands. *)
Fixpoint ops (env : gmap string string) (e : expr) : list op :=
  match e with
  | Name _ | Str _ | Int _ | Decimal _ _ | BoolE _ | Lambda _ _ => []
  | Attr e1 _ | Starred e1 => ops env e1
  | Call f args kwargs =>
      ops env f ++ flat_map (ops env) args
      ++ flat_map (fun kv => ops env (snd kv)) kwargs ++ [OpCall (qual env f)]
  | Subscript e1 e2 => ops env e1 ++ ops env e2
  | Compare e1 c e2 => ops env e1 ++ ops env e2 ++ [OpCompare c]
  | BinOp e1 b e2 => ops env e1 ++ ops env e2 ++ [OpArith b]
  | Slice a b c =>
      from_option (ops env) [] a ++ from_option (ops env) [] b
      ++ from_option (ops env) [] c
  | TupleE items | SetE items => flat_map (ops env) items
  end.

(** An assignment evaluates its value, then the object and the index of its
    target, then binds (a name) or stores (an item, an attribute). *)
Fixpoint target_ops (env : gmap string string) (t : expr) : list op :=
  match t with
  | Subscript obj i => ops env obj ++ ops env i ++ [OpStore (qual env obj)]
  | Attr obj _ => ops env obj ++ [OpStore (qual env obj)]
  | TupleE items => flat_map (target_ops env) items
  | _ => []
  end.

Definition stmt_ops (env : gmap string string) (s : stmt) : list op :=
  match s with
  | Assign t v => ops env v ++ target_ops env t
  | _ => flat_map (ops env) (stmt_exprs s)
  end.

Definition bind_names (origin : string) (targets : list expr) (env : gmap string string)
  : gmap string string :=
  foldr (fun t acc => match t with Name x => <[x := origin +:+ "[]"]> acc | _ => acc end)
        env targets.

(** What a simple statement binds. *)
Definition bind_stmt (env : gmap string string) (s : stmt) : gmap string string :=
  match s with
  | Import m => <[top_module m := top_module m]> env
  | ImportAs m a => <[a := m]> env
  | ImportFrom m names => foldr (fun n acc => <[n := m +:+ "." +:+ n]> acc) env names
  | Assign (Name x) v => <[x := qual env v]> env
  | Assign (TupleE targets) v => bind_names (qual env v) targets env
  | _ => env
  end.

Definition bind_all (env : gmap string string) (ss : list stmt) : gmap string string :=
  foldl bind_stmt env ss.

(** The operations of a straight-line statement list, in order, each
    statement resolved under the bindings the statements before it made. *)
Fixpoint trace (env : gmap string string) (ss : list stmt) : list op :=
  match ss with
  | [] => []
  | s :: rest => stmt_ops env s ++ trace (bind_stmt env s) rest
  end.

(** Cell by cell: the bindings of a cell are visible in the cells after it. *)
Fixpoint cell_traces (env : gmap string string) (bodies : list (list stmt)) : list (list op) :=
  match bodies with
  | [] => []
  | body :: rest => trace env body :: cell_traces (bind_all env body) rest
  end.

Definition op_trace (nb : list cell) : list op := trace ∅ (program nb).

(** The calls that pass the keyword [k], with the value they pass. *)
Fixpoint passes (k : string) (env : gmap string string) (e : expr) : list (string * expr) :=
  match e with
  | Name _ | Str _ | Int _ | Decimal _ _ | BoolE _ | Lambda _ _ => []
  | Attr e1 _ | Starred e1 => passes k env e1
  | Call f args kwargs =>
      passes k env f ++ flat_map (passes k env) args
      ++ flat_map (fun kv => passes k env (snd kv)) kwargs
      ++ match assoc k kwargs with Some v => [(qual env f, v)] | None => [] end
  | Subscript e1 e2 | Compare e1 _ e2 | BinOp e1 _ e2 => passes k env e1 ++ passes k env e2
  | Slice a b c =>
      from_option (passes k env) [] a ++ from_option (passes k env) [] b
      ++ from_option (passes k env) [] c
  | TupleE items | SetE items => flat_map (passes k env) items
  end.

Fixpoint passes_in (k : string) (env : gmap string string) (ss : list stmt)
  : list (string * expr) :=
  match ss with
  | [] => []
  | s :: rest => flat_map (passes k env) (stmt_exprs s) ++ passes_in k (bind_stmt env s) rest
  end.

(** *** Names a statement reads *)

Fixpoint names (e : expr) : list string :=
  match e with
  | Name x => [x]
  | Str _ | Int _ | Decimal _ _ | BoolE _ => []
  | Attr e1 _ | Starred e1 | Lambda _ e1 => names e1
  | Call f args kwargs =>
      names f ++ flat_map names args ++ flat_map (fun kv => names (snd kv)) kwargs
  | Subscript e1 e2 | Compare e1 _ e2 | BinOp e1 _ e2 => names e1 ++ names e2
  | Slice a b c => from_option names [] a ++ from_option names [] b ++ from_option names [] c
  | TupleE items | SetE items => flat_map names items
  end.

(** A name that is assigned is written, not read; the object and the index of
    a store are read. *)
Fixpoint target_reads (t : expr) : list string :=
  match t with
  | Subscript obj i => names obj ++ names i
  | Attr obj _ => names obj
  | TupleE items => flat_map target_reads items
  | _ => []
  end.

Definition reads (s : stmt) : list string :=
  match s with
  | Assign t v => names v ++ target_reads t
  | _ => flat_map names (stmt_exprs s)
  end.

Definition mentions (x : string) (s : stmt) : bool := existsb (String.eqb x) (reads s).

(** The operations of the statements that read [x]. *)
Fixpoint consumers (env : gmap string string) (x : string) (ss : list stmt) : list (list op) :=
  match ss with
  | [] => []
  | s :: rest =>
      (if mentions x s then [stmt_ops env s] else [])
      ++ consumers (bind_stmt env s) x rest
  end.

(** *** Stages

    The first eight are the stages the specification names; the last three are
    the other computations the cells make. *)

Inductive stage :=
| LoadExperiment | LoadFieldOfView | BackgroundSubtract | ClipScale | ResidualBackground
| SpotDetection | Decode | CompareDetectors
| BackgroundEstimate | GaussianBlur | LabelImage.

#[global] Instance stage_eq_dec : EqDecision stage.
Proof. solve_decision. Defined.

(** Which stage a call carries out.  Constructing a filter or detector,
    displaying, printing and converting carry out none; the pixel decoder
    detects and decodes in one call. *)
Definition call_stages : list (string * list stage) :=
  [ ("starfish.data.SeqFISH", [LoadExperiment]);
    ("starfish.data.SeqFISH()[].get_image", [LoadFieldOfView]);
    ("starfish.data.SeqFISH()[].get_image().apply", [BackgroundEstimate]);
    ("starfish.image.Filter.WhiteTophat().run", [BackgroundSubtract]);
    ("starfish.image.Filter.Clip().run", [ClipScale]);
    ("starfish.spots.DetectSpots.LocalSearchBlobDetector().run", [SpotDetection]);
    ("starfish.data.SeqFISH().codebook.decode_per_round_max", [Decode]);
    ("starfish.image.Filter.GaussianLowPass().run", [GaussianBlur]);
    ("starfish.spots.DetectPixels.PixelSpotDecoder().run", [SpotDetection; Decode]);
    ("starfish.ImageStack.from_numpy", [LabelImage]);
    ("numpy.sum", [CompareDetectors]);
    ("numpy.unique", [CompareDetectors]);
    ("scipy.stats.pearsonr", [CompareDetectors]) ].

(** Storing into the pixel array of the copy of the clipped stack is the
    residual background removal. *)
Definition stage_of_op (o : op) : list stage :=
  match o with
  | OpCall callee => default [] (assoc callee call_stages)
  | OpStore object =>
      if String.eqb object "starfish.image.Filter.Clip().run().xarray.values"
      then [ResidualBackground] else []
  | OpCompare _ | OpArith _ => []
  end.

Definition stages_of (t : list op) : list stage := flat_map stage_of_op t.

(** Merge runs of one stage. *)
Fixpoint compress (l : list stage) : list stage :=
  match l with
  | a :: (b :: _) as rest => if decide (a = b) then compress rest else a :: compress rest
  | _ => l
  end.

Definition stages (nb : list cell) : list stage := compress (stages_of (op_trace nb)).

(** The specification's pipeline, in its words: load experiment, load
    field-of-view image, background-subtract (white tophat), intensity-clip and
    scale, residual background removal, spot detection, decode against a
    codebook, compare detection counts and correlation. *)
Definition spec_pipeline : list stage :=
  [ LoadExperiment; LoadFieldOfView; BackgroundSubtract; ClipScale; ResidualBackground;
    SpotDetection; Decode; CompareDetectors ].

(** *** Where a callee comes from *)

Definition imported_module (s : stmt) : list string :=
  match s with
  | Import m | ImportAs m _ | ImportFrom m _ => [top_module m]
  | _ => []
  end.

Definition imported_modules (nb : list cell) : list string :=
  flat_map imported_module (program nb).

Definition builtins : list string := ["print"; "int"].

(** The package a resolved callee starts with ([top_module] cuts at the first
    dot). *)
Definition external (nb : list cell) (callee : string) : bool :=
  existsb (String.eqb (top_module callee)) (imported_modules nb ++ builtins).

Definition is_call (o : op) : bool := match o with OpCall _ => true | _ => false end.

Definition library_call (nb : list cell) (o : op) : bool :=
  match o with OpCall callee => external nb callee | _ => false end.

Definition is_store (o : op) : bool := match o with OpStore _ => true | _ => false end.

(** The cells that carry out a stage, as their operations. *)
Definition stage_cells (nb : list cell) : list (list op) :=
  List.filter (fun t => negb (Nat.eqb (length (stages_of t)) 0))
              (cell_traces ∅ (code_cells nb)).

Definition single_call (t : list op) : bool :=
  match t with [OpCall _] => true | _ => false end.

(** How a cell is made: its stages, how many calls, how many operations of
    its own. *)
Definition make (t : list op) : list stage * nat * nat :=
  (compress (stages_of t),
   length (List.filter is_call t),
   length (List.filter (fun o => negb (is_call o)) t)).

(** ** Control semantics with exceptions

    What a simple statement does (calling into a library, binding a name,
    storing into an array) is a parameter: it either yields the next state or
    raises.  The control statements are given their Python meaning on top of
    it, so that a handler is the one thing that can stop an exception. *)

Inductive outcome (St Exn : Type) :=
| Finished (st : St)
| Raised (e : Exn) (st : St)
| OutOfFuel.
Arguments Finished {St Exn} st.
Arguments Raised {St Exn} e st.
Arguments OutOfFuel {St Exn}.

Section Exec.
Context {St Exn : Type}.

(** a simple statement: the next state, or the exception it raises *)
Variable step : stmt -> St -> St + Exn.
(** the truth value of a condition *)
Variable truth : expr -> St -> bool + Exn.
(** [next target iter k st]: bind the [k]-th item of [iter] to [target], or
    [None] when the iterable is exhausted *)
Variable next : expr -> expr -> nat -> St -> option St + Exn.
(** whether an [except] clause for this class takes this exception *)
Variable catches : expr -> Exn -> bool.
(** entering a context manager, and leaving it: the flag tells whether
    [__exit__] swallows the exception it is handed *)
Variable enter : expr -> St -> St + Exn.
Variable leave : expr -> option Exn -> St -> St * bool.

Fixpoint exec (fuel : nat) (ss : list stmt) (st : St) {struct fuel} : outcome St Exn :=
  match ss with
  | [] => Finished st
  | s :: rest =>
    match fuel with
    | O => OutOfFuel
    | S n =>
      match s with
      | If c b1 b2 =>
          match truth c st with
          | inl b => exec n ((if b then b1 else b2) ++ rest) st
          | inr e => Raised e st
          end
      | While c b =>
          match truth c st with
          | inl true => exec n (b ++ s :: rest) st
          | inl false => exec n rest st
          | inr e => Raised e st
          end
      | For t i b => exec_for n t i b rest 0%nat st
      | Try b hs =>
          match exec n b st with
          | Finished st' => exec n rest st'
          | Raised e st' =>
              match List.find (fun h => catches (fst h) e) hs with
              | Some h => exec n (snd h ++ rest) st'
              | None => Raised e st'
              end
          | OutOfFuel => OutOfFuel
          end
      | With c b =>
          match enter c st with
          | inr e => Raised e st
          | inl st1 =>
              match exec n b st1 with
              | Finished st2 => exec n rest (fst (leave c None st2))
              | Raised e st2 =>
                  let '(st3, swallowed) := leave c (Some e) st2 in
                  if swallowed then exec n rest st3 else Raised e st3
              | OutOfFuel => OutOfFuel
              end
          end
      | _ =>
          match step s st with
          | inl st' => exec n rest st'
          | inr e => Raised e st
          end
      end
    end
  end
with exec_for (fuel : nat) (t i : expr) (b rest : list stmt) (k : nat) (st : St)
     {struct fuel} : outcome St Exn :=
  match fuel with
  | O => OutOfFuel
  | S n =>
    match next t i k st with
    | inr e => Raised e st
    | inl None => exec n rest st
    | inl (Some st1) =>
        match exec n b st1 with
        | Finished st2 => exec_for n t i b rest (S k) st2
        | o => o
        end
    end
  end.

(** Straight-line code: one step after the other, stopping at the first
    exception with the state in which it was raised. *)
Fixpoint run_straight (ss : list stmt) (st : St) : outcome St Exn :=
  match ss with
  | [] => Finished st
  | s :: rest =>
      match step s st with
      | inl st' => run_straight rest st'
      | inr e => Raised e st
      end
  end.

End Exec.

(** ** Arrays, image stacks and the heap

    Pixel values are IEEE floating-point numbers in their normalised
    representation (mantissa and exponent as the element type stores them);
    only their comparison is used, which [SpecFloat] defines on the values
    themselves, NaN included.  An image stack is a mutable object: the heap
    maps a reference to the values of the stack's array, a new object gets
    the next free reference. *)

Definition pixel := spec_float.

Inductive exn :=
| KeyError (key : string)
| ValueError (what : string)
| LibraryError (what : string)      (* whatever a library routine raises *)
| NoSuchObject.                     (* a reference the heap does not hold *)

Inductive result (A : Type) :=
| Ok (a : A)
| Fail (e : exn).
Arguments Ok {A} a.
Arguments Fail {A} e.

#[global] Instance result_ret : MRet result := fun A a => Ok a.
#[global] Instance result_bind : MBind result :=
  fun A B k r => match r with Ok a => k a | Fail e => Fail e end.

(** State-passing computations on the heap that may raise. *)
Definition M (A : Type) : Type := list (list pixel) -> result (A * list (list pixel)).

Definition ret {A} (a : A) : M A := fun h => Ok (a, h).
Definition bind {A B} (m : M A) (k : A -> M B) : M B :=
  fun h => match m h with Ok (a, h') => k a h' | Fail e => Fail e end.
Definition lift {A} (r : result A) : M A :=
  fun h => match r with Ok a => Ok (a, h) | Fail e => Fail e end.

Notation "'let*' x ':=' m 'in' k" := (bind m (fun x => k))
  (at level 10, x pattern, m at level 100, k at level 200).

Definition alloc (px : list pixel) : M nat := fun h => Ok (length h, h ++ [px]).
Definition load (l : nat) : M (list pixel) :=
  fun h => match h !! l with Some px => Ok (px, h) | None => Fail NoSuchObject end.
Definition store (l : nat) (px : list pixel) : M unit := fun h => Ok (tt, <[l := px]> h).

(** *** numpy on arrays *)

(** The element types an image array can have. *)
Inductive dtype := float32 | float64.

Definition prec (d : dtype) : Z := match d with float32 => 24 | float64 => 53 end.
Definition emax (d : dtype) : Z := match d with float32 => 128 | float64 => 1024 end.

(** The Python literal 0.7, a binary64 number: 6305039478318694 * 2^-53. *)
Definition lit_0_7 : pixel := S754_finite false 6305039478318694 (-53).

(** A Python float that meets an array in a comparison is first converted to
    the array's element type, rounding to nearest. *)
Definition astype (d : dtype) (x : pixel) : pixel :=
  match x with
  | S754_finite s m e => binary_normalize (prec d) (emax d) (cond_Zopp s (Zpos m)) e s
  | _ => x
  end.

(** The integer 0 stored into a float array. *)
Definition zero : pixel := S754_zero false.

(** [a < x], element by element. *)
Definition np_less (a : list pixel) (x : pixel) : list bool := map (fun v => SFltb v x) a.

(** [a[mask] = x]: the elements where the mask is set are replaced. *)
Definition np_setitem_mask (a : list pixel) (mask : list bool) (x : pixel) : list pixel :=
  zip_with (fun v (m : bool) => if m then x else v) a mask.

(** [copy.deepcopy] of an image stack: a new object with the same values. *)
Definition deepcopy (stack : nat) : M nat :=
  let* px := load stack in alloc px.

(** [values[values < 0.7] = 0] on an array of element type [d]: what the array
    holds afterwards. *)
Definition masked (d : dtype) (values : list pixel) : list pixel :=
  np_setitem_mask values (np_less values (astype d lit_0_7)) zero.

(** [stack.xarray.values[stack.xarray.values < 0.7] = 0] on a stack whose array
    has element type [d]: [xarray.values] is the array the stack holds, not a
    copy, so the store changes the stack. *)
Definition mask_assign (d : dtype) (stack : nat) : M unit :=
  let* values := load stack in
  store stack (masked d values).

(* line 168, on stacks whose arrays have element type [d] *)
Definition do_residual (d : dtype) (scaled : nat) : M nat :=
  let* clipped := deepcopy scaled in
  let* _ := mask_assign d clipped in
  ret clipped.

(** [np.reshape(a, shape)]: the same values, provided there are as many as the
    shape asks for. *)
Definition np_reshape (a : list pixel) (shape : list Z) : result (list pixel) :=
  if Z.eqb (Zlength a) (foldr Z.mul 1 shape) then Ok a
  else Fail (ValueError "cannot reshape array").

(** *** numpy and pandas on target labels *)

(** [labels != s], element by element. *)
Definition np_not_equal (labels : list string) (s : string) : list bool :=
  map (fun x => negb (String.eqb x s)) labels.

(** [np.sum] of a boolean array counts the set elements. *)
Definition np_sum (mask : list bool) : Z := foldr (fun (b : bool) acc => Z.b2z b + acc) 0 mask.

(** One more occurrence of [x] in a table of labels in increasing order. *)
Fixpoint tally (x : string) (table : list (string * nat)) : list (string * nat) :=
  match table with
  | [] => [(x, 1%nat)]
  | (y, n) :: rest =>
      match String.compare x y with
      | Eq => (y, S n) :: rest
      | Lt => (x, 1%nat) :: table
      | Gt => (y, n) :: tally x rest
      end
  end.

(** [np.unique(labels, return_counts=True)]: the distinct labels in increasing
    order, and how often each occurs. *)
Definition np_unique_counts (labels : list string) : list string * list nat :=
  let table := foldr tally [] labels in (map fst table, map snd table).

(** A pandas Series of counts indexed by labels. *)
Record Series := { data : list nat; index : list string }.

(** [pd.Series(data, index)] *)
Definition pd_Series (data : list nat) (index : list string) : result Series :=
  if Nat.eqb (length data) (length index) then Ok {| data := data; index := index |}
  else Fail (ValueError "Length of values does not match length of index").

Definition mem (x : string) (l : list string) : bool := existsb (String.eqb x) l.

(** [a.intersection(b)]: the labels of [a] that are in [b]. *)
Definition Index_intersection (a b : list string) : list string :=
  List.filter (fun x => mem x b) a.

(** [idx.drop(label)]: the index without the label; a label that is not there
    is a KeyError. *)
Definition Index_drop (idx : list string) (label : string) : result (list string) :=
  if mem label idx then Ok (List.filter (fun x => negb (String.eqb x label)) idx)
  else Fail (KeyError label).

(** [series[label]] *)
Definition Series_get (s : Series) (label : string) : result nat :=
  match List.find (fun kv => String.eqb (fst kv) label) (combine (index s) (data s)) with
  | Some kv => Ok (snd kv)
  | None => Fail (KeyError label)
  end.

(** [series[labels]]: the values at the labels, in their order. *)
Fixpoint Series_getitem (s : Series) (labels : list string) : result (list nat) :=
  match labels with
  | [] => Ok []
  | l :: rest =>
      v ← Series_get s l;
      vs ← Series_getitem s rest;
      Ok (v :: vs)
  end.

(** [int(np.sum(table['target'] != 'nan'))] *)
Definition spots_detected (targets : list string) : Z :=
  np_sum (np_not_equal targets "nan").

(** The Series built from [np.unique(targets, return_counts=True)], reversed
    by the slice and unpacked: the counts are the data, the labels the index. *)
Definition gene_counts (targets : list string) : result Series :=
  let '(labels, counts) := np_unique_counts targets in
  pd_Series counts labels.

(** The table [np.unique] counts with, the count it holds for a label, and
    the number of occurrences of a label among the targets. *)
Definition table_of (labels : list string) : list (string * nat) := foldr tally [] labels.

Definition entry (x : string) (table : list (string * nat)) : option nat :=
  snd <$> List.find (fun kv => String.eqb (fst kv) x) table.

Definition occurrences (x : string) (labels : list string) : nat :=
  count_occ string_dec labels x.

(** The order the table keeps its labels in. *)
Definition before (x y : string) : Prop := String.compare x y = Lt.

(** What the last cell hands to [pearsonr]. *)
Definition correlation_inputs (pixel_targets local_targets : list string)
  : result (list string * list nat * list nat) :=
  pixel_decoded_gene_counts ← gene_counts pixel_targets;
  decoded_gene_counts ← gene_counts local_targets;
  codetected ← Index_drop
    (Index_intersection (index pixel_decoded_gene_counts) (index decoded_gene_counts)) "nan";
  x ← Series_getitem pixel_decoded_gene_counts codetected;
  y ← Series_getitem decoded_gene_counts codetected;
  Ok (codetected, x, y).

(** *** The libraries, as far as the notebook calls them

    Every routine is a parameter.  A filter or detector stands for the object
    the notebook configures, applied to the values of a stack. *)

Class Libraries := {
  (* the element type of the arrays the image stacks hold *)
  stack_dtype : dtype;
  Experiment : Type;
  Codebook : Type;
  IntensityTable : Type;
  DecodedIntensityTable : Type;
  ConnectedComponentDecodingResult : Type;
  Correlation : Type;
  (* starfish.data.SeqFISH(use_test_data=...) *)
  data_SeqFISH : bool -> result Experiment;
  (* exp[fov].get_image(name): the values of the stack it builds *)
  get_image : Experiment -> string -> string -> result (list pixel);
  (* exp.codebook *)
  codebook : Experiment -> Codebook;
  (* partial(opening, selem=disk(3)), applied to each (round, channel, z) plane *)
  opening : list pixel -> result (list pixel);
  (* WhiteTophat(masking_radius=3) *)
  WhiteTophat : list pixel -> result (list pixel);
  (* Clip(p_max=99.9, expand_dynamic_range=True, is_volume=True) *)
  Clip : list pixel -> result (list pixel);
  (* GaussianLowPass(sigma=(0.3, 1, 1), is_volume=True) *)
  GaussianLowPass : list pixel -> result (list pixel);
  (* LocalSearchBlobDetector(min_sigma=(1.5, 1.5, 1.5), max_sigma=(8, 8, 8),
     num_sigma=10, threshold=0.5, search_radius=7).run *)
  LocalSearchBlobDetector : list pixel -> result IntensityTable;
  (* intensities.fillna(value) *)
  fillna : IntensityTable -> Z -> IntensityTable;
  (* codebook.decode_per_round_max(intensities) *)
  decode_per_round_max : Codebook -> IntensityTable -> result DecodedIntensityTable;
  (* PixelSpotDecoder(codebook=..., metric='euclidean', distance_threshold=0.5,
     magnitude_threshold=0.1, min_area=7, max_area=50).run *)
  PixelSpotDecoder :
    Codebook -> list pixel -> result (DecodedIntensityTable * ConnectedComponentDecodingResult);
  (* ccdr.decoded_image *)
  decoded_image : ConnectedComponentDecodingResult -> list pixel;
  (* table['target'] *)
  target : DecodedIntensityTable -> list string;
  (* ImageStack.from_numpy(array): the values of the stack it builds *)
  from_numpy : list pixel -> result (list pixel);
  (* starfish.display(stack, spots) *)
  starfish_display : list pixel -> option IntensityTable -> result unit;
  (* scipy.stats.pearsonr(x, y) *)
  pearsonr : list nat -> list nat -> result Correlation
}.

Section Cells.
Context `{Libraries}.

(** Modelled from the spec: the library's filter classes and [ImageStack.apply]
    are not among the sources.  With [in_place=False] the routine leaves the
    stack it is given as it is and returns a new stack holding the result; with
    [in_place=True] it overwrites the stack's values and returns that stack. *)
Definition apply (f : list pixel -> result (list pixel)) (stack : nat) (in_place : bool)
  : M nat :=
  let* values := load stack in
  let* filtered := lift (f values) in
  if in_place then let* _ := store stack filtered in ret stack
  else alloc filtered.

(** Modelled from the spec: a filter's [run] is [apply] with the filter's
    function; [in_place] is False when the call does not give it. *)
Definition run (f : list pixel -> result (list pixel)) (stack : nat) (in_place : bool)
  : M nat := apply f stack in_place.
Definition in_place_default : bool := false.

(** Modelled from the spec: the detector classes are not among the sources.
    A detector reads the values of the stack it is run on and returns a table;
    the stack is as it was. *)
Definition detect {A} (detector : list pixel -> result A) (stack : nat) : M A :=
  let* values := load stack in lift (detector values).

(** Modelled from the spec: [starfish.display] is not among the sources.  It
    shows the values of the stack and returns nothing; the stack is as it
    was. *)
Definition display (stack : nat) (spots : option IntensityTable) : M unit :=
  let* values := load stack in lift (starfish_display values spots).

(* line 48 *)
Definition do_experiment : M Experiment := lift (data_SeqFISH true).

(* line 57 *)
Definition do_image (exp : Experiment) : M nat :=
  let* values := lift (get_image exp "fov_000" "primary") in alloc values.

(* line 104 *)
Definition do_background (img : nat) : M nat :=
  let* background := apply opening img false in
  let* _ := display background None in
  ret background.

(* line 120 *)
Definition do_white_tophat (img : nat) : M nat :=
  let* background_corrected := run WhiteTophat img false in
  let* _ := display background_corrected None in
  ret background_corrected.

(* line 140 *)
Definition do_clip (background_corrected : nat) : M nat :=
  run Clip background_corrected false.

(* line 197 *)
Definition do_local_search (exp : Experiment) (clipped : nat)
  : M (IntensityTable * DecodedIntensityTable) :=
  let* intensities := detect LocalSearchBlobDetector clipped in
  let* decoded := lift (decode_per_round_max (codebook exp) (fillna intensities 0)) in
  ret (intensities, decoded).

(* line 232 *)
Definition do_gaussian (clipped : nat) : M nat :=
  run GaussianLowPass clipped in_place_default.

(* line 242 *)
Definition do_pixel_decoder (exp : Experiment) (blurred : nat)
  : M (DecodedIntensityTable * ConnectedComponentDecodingResult) :=
  detect (PixelSpotDecoder (codebook exp)) blurred.

(* line 264 *)
Definition do_label_image (ccdr : ConnectedComponentDecodingResult) : M nat :=
  let* array := lift (np_reshape (decoded_image ccdr) [1; 1; 29; 280; 280]) in
  let* values := lift (from_numpy array) in
  let* label_image := alloc values in
  let* _ := display label_image None in
  ret label_image.

(* line 282: the two numbers printed *)
Definition do_spot_counts (pixel_decoded decoded : DecodedIntensityTable) : Z * Z :=
  (spots_detected (target pixel_decoded), spots_detected (target decoded)).

(* line 299 *)
Definition do_correlation (pixel_decoded decoded : DecodedIntensityTable)
  : result Correlation :=
  '(_, x, y) ← correlation_inputs (target pixel_decoded) (target decoded);
  pearsonr x y.

(** The names the notebook has bound when its last cell is done. *)
Record session := {
  exp : Experiment;
  img : nat;
  background : nat;
  background_corrected : nat;
  scaled : nat;
  clipped : nat;
  intensities : IntensityTable;
  decoded : DecodedIntensityTable;
  blurred : nat;
  pixel_decoded : DecodedIntensityTable;
  ccdr : ConnectedComponentDecodingResult;
  label_image : nat;
  printed : Z * Z;
  correlation : Correlation
}.

(** The cells in order. *)
Definition notebook : M session :=
  let* exp := do_experiment in
  let* img := do_image exp in
  let* background := do_background img in
  let* background_corrected := do_white_tophat img in
  let* scaled := do_clip background_corrected in
  let* _ := display scaled None in
  let* clipped := do_residual stack_dtype scaled in
  let* _ := display clipped None in
  let* (intensities, decoded) := do_local_search exp clipped in
  let* _ := display clipped (Some intensities) in
  let* blurred := do_gaussian clipped in
  let* (pixel_decoded, ccdr) := do_pixel_decoder exp blurred in
  let* label_image := do_label_image ccdr in
  let printed := do_spot_counts pixel_decoded decoded in
  let* correlation := lift (do_correlation pixel_decoded decoded) in
  ret {| exp := exp; img := img; background := background;
         background_corrected := background_corrected; scaled := scaled;
         clipped := clipped; intensities := intensities; decoded := decoded;
         blurred := blurred; pixel_decoded := pixel_decoded; ccdr := ccdr;
         label_image := label_image; printed := printed; correlation := correlation |}.

End Cells.


(** ** A small library to run the cells on

    The experiment has one field of view of four pixels; the filters return
    what they are given; the detectors return fixed tables; a decoding result
    is the number of pixels of its label image, which the pixel decoder makes
    the 1 * 1 * 29 * 280 * 280 the notebook reshapes it to, and [from_numpy]
    keeps the first two of them. *)

Definition f32 (mantissa : positive) (exponent : Z) : pixel := S754_finite false mantissa exponent.

(** 0.5, 0.9, 0.25 and 0.7 in binary32 *)
Definition example_image : list pixel :=
  [ f32 8388608 (-24); f32 15099494 (-24); f32 8388608 (-25); f32 11744051 (-24) ].

Definition example_libraries : Libraries := {|
  stack_dtype := float32;
  Experiment := unit;
  Codebook := unit;
  IntensityTable := unit;
  DecodedIntensityTable := list string;
  ConnectedComponentDecodingResult := N;
  Correlation := list nat * list nat;
  data_SeqFISH := fun _ => Ok tt;
  get_image := fun _ _ _ => Ok example_image;
  codebook := fun _ => tt;
  opening := Ok;
  WhiteTophat := Ok;
  Clip := Ok;
  GaussianLowPass := Ok;
  LocalSearchBlobDetector := fun _ => Ok tt;
  fillna := fun t _ => t;
  decode_per_round_max := fun _ _ => Ok ["Acta2"; "nan"; "Gja1"; "Acta2"];
  PixelSpotDecoder := fun _ _ => Ok (["Gja1"; "nan"; "Acta2"; "nan"; "Gja1"], 2273600%N);
  decoded_image := fun size => N.iter size (cons zero) [];
  target := fun t => t;
  from_numpy := fun a => Ok (firstn 2 a);
  starfish_display := fun _ _ => Ok tt;
  pearsonr := fun x y => Ok (x, y)
|}.

(** What the notebook binds and what the heap holds when the cells have run
    on the small library from an empty heap: 0.5 and 0.25 are below the
    threshold, 0.9 and the binary32 0.7 are not. *)
Definition example_session : @session example_libraries :=
  @Build_session example_libraries
    tt 0%nat 1%nat 2%nat 3%nat 4%nat tt
    ["Acta2"; "nan"; "Gja1"; "Acta2"]
    5%nat
    ["Gja1"; "nan"; "Acta2"; "nan"; "Gja1"]
    2273600%N 6%nat (3, 3) ([1; 2], [2; 1])%nat.

Definition example_clipped : list pixel :=
  [ zero; f32 15099494 (-24); zero; f32 11744051 (-24) ].

Definition example_heap : list (list pixel) :=
  [ example_image; example_image; example_image; example_image;
    example_clipped; example_clipped; [zero; zero] ].

(** A statement oracle for the control semantics: the clip filter's [run]
    raises, every other statement counts one step. *)
Definition example_step (s : stmt) (n : nat) : nat + string :=
  match s with
  | Assign (Name x) _ => if String.eqb x "scaled" then inr "ValueError" else inl (S n)
  | _ => inl (S n)
  end.

(** ** The specification's statements about the cells, in its words *)

(** "Every stage of the pipeline is a single call into the external library's
    API." *)
Definition every_stage_is_a_single_call (nb : list cell) : Prop :=
  Forall (fun t => single_call t = true) (stage_cells nb).

(** "Every non-trivial operation the notebook performs is carried out by a call
    into an external library, never by computation the notebook implements
    itself": every operation on the way is such a call. *)
Definition every_operation_is_a_library_call (nb : list cell) : Prop :=
  Forall (fun o => library_call nb o = true) (op_trace nb).

(** A store of the notebook's own into an object that comes from a library. *)
Definition alters_library_entity (nb : list cell) (o : op) : bool :=
  match o with OpStore object => external nb object | _ => false end.

(** "At no point does it alter such an entity's state through any other
    means": the cells themselves store into no object of a library. *)
Definition entities_only_altered_by_library (nb : list cell) : Prop :=
  Forall (fun o => alters_library_entity nb o = false) (op_trace nb).

(** "After the residual background removal step, every pixel value in the
    clipped image stack is either exactly 0 or at least 0.7, and every value
    that is at least 0.7 equals the corresponding value in scaled; no value
    between 0 and 0.7, both excluded, remains": the statement at a heap and a
    stack whose array has element type [d]. *)
Definition residual_claim (d : dtype) (h : list (list pixel)) (scaled : nat) : Prop :=
  exists clipped h' c s,
    do_residual d scaled h = Ok (clipped, h')
    /\ h' !! clipped = Some c /\ h !! scaled = Some s
    /\ forall i v, c !! i = Some v ->
         (SFeqb v zero = true \/ SFleb (astype d lit_0_7) v = true)
         /\ (SFleb (astype d lit_0_7) v = true -> s !! i = Some v)
         /\ ~ (SFltb zero v = true /\ SFltb v (astype d lit_0_7) = true).


(** ** Names bound and names read *)

Fixpoint target_names (t : expr) : list string :=
  match t with
  | Name x => [x]
  | TupleE items => flat_map target_names items
  | _ => []
  end.

(** The names a simple statement binds. *)
Definition binds (s : stmt) : list string :=
  match s with
  | Import m => [top_module m]
  | ImportAs _ a => [a]
  | ImportFrom _ imported => imported
  | Assign t _ => target_names t
  | FunctionDef f _ _ | ClassDef f _ => [f]
  | _ => []
  end.

(** The names a straight-line statement list reads before a statement has
    bound them, [bound] being the names bound beforehand. *)
Fixpoint unbound_reads (bound : list string) (ss : list stmt) : list string :=
  match ss with
  | [] => []
  | s :: rest =>
      List.filter (fun x => negb (mem x bound)) (reads s)
      ++ unbound_reads (binds s ++ bound) rest
  end.

(** The names that are bound and read by no statement. *)
Definition never_read (ss : list stmt) : list string :=
  List.filter (fun x => negb (mem x (flat_map reads ss))) (flat_map binds ss).

(** * Facts *)

(** ** The control semantics on straight-line code *)

Section ExecFacts.
Context {St Exn : Type}.
Variable step : stmt -> St -> St + Exn.
Variable truth : expr -> St -> bool + Exn.
Variable next : expr -> expr -> nat -> St -> option St + Exn.
Variable catches : expr -> Exn -> bool.
Variable enter : expr -> St -> St + Exn.
Variable leave : expr -> option Exn -> St -> St * bool.

Local Abbreviation exec := (exec step truth next catches enter leave).
Local Abbreviation run_straight := (run_straight step).

Lemma exec_straight (ss : list stmt) :
  forallb is_simple ss = true ->
  forall fuel st, (length ss <= fuel)%nat -> exec fuel ss st = run_straight ss st.
Proof.
  induction ss as [|s rest IH]; intros Hs fuel st Hf.
  - destruct fuel; reflexivity.
  - simpl in Hs. apply andb_true_iff in Hs as [Hsimple Hrest].
    destruct fuel as [|n]; [simpl in Hf; lia|].
    simpl in Hf.
    destruct s; simpl in Hsimple; try discriminate; simpl;
      (destruct (step _ st); [apply IH; [assumption | lia] | reflexivity]).
Qed.

Lemma run_straight_app (pre post : list stmt) (st st' : St) :
  run_straight pre st = Finished st' ->
  run_straight (pre ++ post) st = run_straight post st'.
Proof.
  revert st. induction pre as [|s pre IH]; intros st H; simpl in *.
  - congruence.
  - destruct (step s st); [apply IH; assumption | discriminate].
Qed.

Lemma run_straight_raise (pre post : list stmt) (s : stmt) (st st' : St) (e : Exn) :
  run_straight pre st = Finished st' ->
  step s st' = inr e ->
  run_straight (pre ++ s :: post) st = Raised e st'.
Proof.
  intros Hpre Hs. rewrite (run_straight_app _ _ _ _ Hpre). simpl. rewrite Hs. reflexivity.
Qed.

(** In code whose statements are all simple, the exception of the first
    failing statement is the outcome, whatever follows it. *)
Lemma straight_line_propagates (body pre post : list stmt) (s : stmt)
      (st st' : St) (e : Exn) (fuel : nat) :
  forallb is_simple body = true ->
  body = pre ++ s :: post ->
  (length body <= fuel)%nat ->
  exec fuel pre st = Finished st' ->
  step s st' = inr e ->
  exec fuel body st = Raised e st'.
Proof.
  intros Hsimple -> Hfuel Hpre Hs.
  rewrite exec_straight by assumption.
  rewrite forallb_app in Hsimple. apply andb_true_iff in Hsimple as [Hp _].
  rewrite exec_straight in Hpre; [| assumption | rewrite length_app in Hfuel; lia].
  eapply run_straight_raise; eassumption.
Qed.

(** A handler does stop an exception: the semantics tells the two apart. *)
Lemma try_catches (s : stmt) (cls : expr) (st : St) (e : Exn) :
  is_simple s = true -> step s st = inr e -> catches cls e = true ->
  exec 2 [Try [s] [(cls, [])]] st = Finished st.
Proof.
  intros Hs Hstep Hc. simpl.
  destruct s; simpl in Hs; try discriminate; rewrite Hstep; simpl; rewrite Hc; reflexivity.
Qed.

End ExecFacts.

(** ** The cells as syntax *)

(** Every statement of every code cell is simple: a magic, an import, an
    assignment or an expression. *)
Lemma cells_are_straight_line :
  forallb (forallb is_simple) (code_cells SeqFISH.cells) = true.
Proof. reflexivity. Qed.

Lemma cells_have_no_handler :
  existsb handles (program SeqFISH.cells) = false
  /\ existsb raises (program SeqFISH.cells) = false.
Proof. split; reflexivity. Qed.

(** C1, as stated, fails: the stages the cells carry out, in order, are not the
    eight of the specification. *)
Lemma stages_differ_from_spec_pipeline : stages SeqFISH.cells <> spec_pipeline.
Proof. vm_compute. discriminate. Qed.

(** C1, amended: the cells carry out, in this order, load experiment, load
    field-of-view image, background estimate by morphological opening, white
    tophat, clip and scale, residual background removal, local-search spot
    detection, decoding, Gaussian blur, pixel spot detection and decoding,
    label image, comparison.  The eight stages of the specification occur in
    it in the specification's order.  Of the three others, the background
    estimate and the label image are only displayed, and the blurred stack is
    what the pixel decoder runs on. *)
Theorem stages_in_order :
  stages SeqFISH.cells =
    [ LoadExperiment; LoadFieldOfView; BackgroundEstimate; BackgroundSubtract; ClipScale;
      ResidualBackground; SpotDetection; Decode; GaussianBlur; SpotDetection; Decode;
      LabelImage; CompareDetectors ]
  /\ sublist spec_pipeline (stages SeqFISH.cells)
  /\ consumers ∅ "background" (program SeqFISH.cells) = [[OpCall "starfish.display"]]
  /\ consumers ∅ "label_image" (program SeqFISH.cells) = [[OpCall "starfish.display"]]
  /\ consumers ∅ "blurred" (program SeqFISH.cells)
     = [[OpCall "starfish.spots.DetectPixels.PixelSpotDecoder().run"]].
Proof.
  assert (Hst : stages SeqFISH.cells =
    [ LoadExperiment; LoadFieldOfView; BackgroundEstimate; BackgroundSubtract; ClipScale;
      ResidualBackground; SpotDetection; Decode; GaussianBlur; SpotDetection; Decode;
      LabelImage; CompareDetectors ]) by (vm_compute; reflexivity).
  split; [exact Hst|]. split.
  - rewrite Hst. unfold spec_pipeline.
    repeat first [apply sublist_skip | apply sublist_cons | apply sublist_nil].
  - repeat split; vm_compute; reflexivity.
Qed.

(** C2, as stated, fails: not every operation of the cells is a call into a
    library. *)
Lemma some_operation_is_the_notebooks_own :
  ~ every_operation_is_a_library_call SeqFISH.cells.
Proof.
  unfold every_operation_is_a_library_call. rewrite List.Forall_forall. intros Hall.
  specialize (Hall (OpCompare CmpLt)).
  assert (Hin : In (OpCompare CmpLt) (op_trace SeqFISH.cells)).
  { apply (nth_error_In _ 13). reflexivity. }
  specialize (Hall Hin). discriminate Hall.
Qed.

(** C2, amended: white-tophat filtering, Gaussian blur, blob detection, pixel
    decoding and codebook matching are each a call of a method of an object of
    a starfish class; every call of the notebook goes to an imported package
    or a builtin; the operations that are not calls are the comparison and the
    masked store of the residual background removal, and the two comparisons
    with 'nan' of the spot counts. *)
Theorem named_operations_are_library_calls :
  Forall (fun callee => In (OpCall callee) (op_trace SeqFISH.cells)
                        /\ external SeqFISH.cells callee = true)
    [ "starfish.image.Filter.WhiteTophat().run";
      "starfish.image.Filter.GaussianLowPass().run";
      "starfish.spots.DetectSpots.LocalSearchBlobDetector().run";
      "starfish.spots.DetectPixels.PixelSpotDecoder().run";
      "starfish.data.SeqFISH().codebook.decode_per_round_max" ]
  /\ forallb (fun o => implb (is_call o) (library_call SeqFISH.cells o))
             (op_trace SeqFISH.cells) = true
  /\ List.filter (fun o => negb (library_call SeqFISH.cells o)) (op_trace SeqFISH.cells)
     = [ OpCompare CmpLt;
         OpStore "starfish.image.Filter.Clip().run().xarray.values";
         OpCompare CmpNotEq; OpCompare CmpNotEq ].
Proof.
  split; [| split; vm_compute; reflexivity].
  repeat apply List.Forall_cons; try apply List.Forall_nil;
    (split; [| vm_compute; reflexivity]).
  - apply (nth_error_In _ 7). reflexivity.
  - apply (nth_error_In _ 22). reflexivity.
  - apply (nth_error_In _ 17). reflexivity.
  - apply (nth_error_In _ 24). reflexivity.
  - apply (nth_error_In _ 19). reflexivity.
Qed.

(** C8, as stated, fails: the cells that carry out a stage are not each one
    call. *)
Lemma some_stage_is_not_a_single_call : ~ every_stage_is_a_single_call SeqFISH.cells.
Proof.
  unfold every_stage_is_a_single_call. rewrite List.Forall_forall. intros Hall.
  specialize (Hall [ OpCall "copy.deepcopy"; OpCompare CmpLt;
                     OpStore "starfish.image.Filter.Clip().run().xarray.values" ]).
  assert (Hin : In [ OpCall "copy.deepcopy"; OpCompare CmpLt;
                     OpStore "starfish.image.Filter.Clip().run().xarray.values" ]
                   (stage_cells SeqFISH.cells)).
  { apply (nth_error_In _ 5). reflexivity. }
  specialize (Hall Hin). discriminate Hall.
Qed.

(** C8, amended: every cell is a straight line of simple statements, with no
    branch, loop, handler, raise or declaration; a stage is one to seven calls
    into the libraries, and two stages add operations of the notebook's own:
    the residual background removal is a deep copy followed by a comparison
    and a masked store, and the spot counts compare with 'nan'. *)
Theorem stages_are_straight_line_calls :
  forallb (forallb is_simple) (code_cells SeqFISH.cells) = true
  /\ existsb has_control (program SeqFISH.cells) = false
  /\ map make (stage_cells SeqFISH.cells)
     = [ ([LoadExperiment], 1, 0); ([LoadFieldOfView], 1, 0); ([BackgroundEstimate], 4, 0);
         ([BackgroundSubtract], 3, 0); ([ClipScale], 2, 0); ([ResidualBackground], 1, 2);
         ([SpotDetection; Decode], 4, 0); ([GaussianBlur], 2, 0);
         ([SpotDetection; Decode], 2, 0); ([LabelImage], 3, 0);
         ([CompareDetectors], 6, 2); ([CompareDetectors], 7, 0) ]%nat
  /\ forallb (fun o => implb (is_call o) (library_call SeqFISH.cells o))
             (concat (stage_cells SeqFISH.cells)) = true.
Proof. repeat split; vm_compute; reflexivity. Qed.

(** C9: the notebook declares no function, no class and no lambda, and every
    call it makes goes to a package it imports or to a builtin. *)
Theorem notebook_declares_nothing :
  existsb declares (program SeqFISH.cells) = false
  /\ forallb (fun o => implb (is_call o) (library_call SeqFISH.cells o))
             (op_trace SeqFISH.cells) = true.
Proof. split; vm_compute; reflexivity. Qed.

(** ** Computations on the heap *)

Lemma bind_Ok {A B} (m : M A) (k : A -> M B) h b h' :
  bind m k h = Ok (b, h') -> exists a h1, m h = Ok (a, h1) /\ k a h1 = Ok (b, h').
Proof. unfold bind. destruct (m h) as [[a h1]|e]; [eauto | discriminate]. Qed.

Lemma lift_Ok {A} (r : result A) h a h' : lift r h = Ok (a, h') -> r = Ok a /\ h' = h.
Proof. unfold lift. destruct r; intros [=]; subst; auto. Qed.

Lemma ret_Ok {A} (x : A) h a h' : ret x h = Ok (a, h') -> a = x /\ h' = h.
Proof. unfold ret. intros [=]; subst; auto. Qed.

Lemma load_Ok l h v h' : load l h = Ok (v, h') -> h !! l = Some v /\ h' = h.
Proof. unfold load. destruct (h !! l); intros [=]; subst; auto. Qed.

Lemma alloc_Ok v h l h' : alloc v h = Ok (l, h') -> l = length h /\ h' = h ++ [v].
Proof. unfold alloc. intros [=]; subst; auto. Qed.

Lemma store_Ok l v h u h' : store l v h = Ok (u, h') -> h' = <[l := v]> h.
Proof. unfold store. intros [=]; subst; auto. Qed.

Ltac bind_in H a h Ha :=
  apply bind_Ok in H as (a & h & Ha & H).

(** A routine run with [in_place=False] reads its stack and allocates. *)
Lemma apply_fresh f stack h l h' :
  apply f stack false h = Ok (l, h') ->
  exists v w, h !! stack = Some v /\ f v = Ok w /\ l = length h /\ h' = h ++ [w].
Proof.
  unfold apply. intros Hrun.
  bind_in Hrun v h1 Hv. apply load_Ok in Hv as [Hv ->].
  bind_in Hrun w h2 Hw. apply lift_Ok in Hw as [Hw ->].
  apply alloc_Ok in Hrun as [-> ->]. eauto 10.
Qed.

Lemma display_Ok `{Libraries} stack spots h u h' :
  display stack spots h = Ok (u, h') -> h' = h.
Proof.
  unfold display. intros Hrun.
  bind_in Hrun v h1 Hv. apply load_Ok in Hv as [_ ->].
  apply lift_Ok in Hrun as [_ ->]. reflexivity.
Qed.

Lemma detect_Ok {A} (detector : list pixel -> result A) stack h a h' :
  detect detector stack h = Ok (a, h') ->
  h' = h /\ exists v, h !! stack = Some v /\ detector v = Ok a.
Proof.
  unfold detect. intros Hrun.
  bind_in Hrun v h1 Hv. apply load_Ok in Hv as [Hv ->].
  apply lift_Ok in Hrun as [Hd ->]. eauto.
Qed.

Lemma do_residual_run d scaled h s :
  h !! scaled = Some s ->
  do_residual d scaled h = Ok (length h, h ++ [masked d s]).
Proof.
  intros Hs. unfold do_residual, deepcopy, mask_assign, bind, load, alloc, store, ret.
  rewrite Hs. rewrite list_lookup_middle by reflexivity.
  rewrite insert_app_r_alt by lia. rewrite Nat.sub_diag. reflexivity.
Qed.

Lemma do_residual_Ok d scaled h l h' :
  do_residual d scaled h = Ok (l, h') ->
  exists s, h !! scaled = Some s /\ l = length h /\ h' = h ++ [masked d s].
Proof.
  intros Hrun. destruct (h !! scaled) as [s|] eqn:Hs.
  - rewrite (do_residual_run _ _ _ _ Hs) in Hrun. injection Hrun as <- <-. eauto.
  - unfold do_residual, deepcopy, bind, load in Hrun. rewrite Hs in Hrun. discriminate.
Qed.

(** ** Comparison of pixel values and the masked store *)

Lemma SFcompare_antisym (x y : spec_float) :
  SFcompare y x = option_map CompOpp (SFcompare x y).
Proof.
  destruct x as [sx|sx| |sx mx ex], y as [sy|sy| |sy my ey]; simpl; try reflexivity;
    try (destruct sx; destruct sy; reflexivity);
    try (destruct sx; reflexivity); try (destruct sy; reflexivity).
  destruct sx, sy; simpl; try reflexivity;
    rewrite (Z.compare_antisym ex ey); destruct (ex ?= ey)%Z; simpl; try reflexivity;
    rewrite (Pos.compare_cont_antisym mx my Eq); reflexivity.
Qed.

Lemma SFcompare_None (x y : spec_float) :
  SFcompare x y = None -> x = S754_nan \/ y = S754_nan.
Proof.
  destruct x, y; simpl; intros Hc; try discriminate; auto.
Qed.

(** What is not below a number is at least that number, NaN apart. *)
Lemma not_below_at_least (t v : spec_float) :
  t <> S754_nan -> v <> S754_nan -> SFltb v t = false -> SFleb t v = true.
Proof.
  intros Ht Hv. unfold SFltb, SFleb. rewrite (SFcompare_antisym v t).
  destruct (SFcompare v t) as [[]|] eqn:Hc; simpl; try reflexivity; try discriminate.
  apply SFcompare_None in Hc as [?|?]; contradiction.
Qed.

Lemma below_not_at_least (t v : spec_float) : SFltb v t = true -> SFleb t v = false.
Proof.
  unfold SFltb, SFleb. rewrite (SFcompare_antisym v t).
  destruct (SFcompare v t) as [[]|]; simpl; try reflexivity; discriminate.
Qed.

Lemma np_setitem_mask_less (a : list pixel) (t x : pixel) :
  np_setitem_mask a (np_less a t) x = map (fun v => if SFltb v t then x else v) a.
Proof.
  unfold np_setitem_mask, np_less. induction a as [|v a IH]; simpl; [reflexivity|].
  f_equal. exact IH.
Qed.

Lemma masked_lookup (d : dtype) (values : list pixel) (i : nat) :
  masked d values !! i
  = (fun v => if SFltb v (astype d lit_0_7) then zero else v) <$> values !! i.
Proof. unfold masked. rewrite np_setitem_mask_less. apply list_lookup_fmap. Qed.

Lemma masked_length (d : dtype) (values : list pixel) :
  length (masked d values) = length values.
Proof. unfold masked. rewrite np_setitem_mask_less. apply length_map. Qed.

(** The literal is the binary64 number nearest to 7/10, and as a binary32
    number it is 11744051 * 2^-24. *)
Lemma lit_0_7_nearest :
  SFdiv (prec float64) (emax float64) (S754_finite false 7 0) (S754_finite false 10 0) = lit_0_7
  /\ astype float64 lit_0_7 = lit_0_7
  /\ astype float32 lit_0_7 = S754_finite false 11744051 (-24).
Proof. repeat split; vm_compute; reflexivity. Qed.

(** The threshold is a positive number, in either element type. *)
Lemma threshold_positive (d : dtype) :
  SFltb zero (astype d lit_0_7) = true /\ astype d lit_0_7 <> S754_nan.
Proof. destruct d; split; vm_compute; congruence. Qed.

(** One pixel through the masked store. *)
Lemma masked_pixel (t sv : pixel) :
  SFltb zero t = true -> t <> S754_nan ->
  let v := if SFltb sv t then zero else sv in
  (sv <> S754_nan -> v = zero \/ SFleb t v = true)
  /\ (sv = S754_nan -> v = S754_nan)
  /\ (SFleb t v = true -> v = sv)
  /\ ~ (SFltb zero v = true /\ SFltb v t = true).
Proof.
  intros Hpos Hnan. destruct (SFltb sv t) eqn:Hlt; simpl.
  - repeat split.
    + auto.
    + intros ->. destruct t; discriminate Hlt.
    + intros Hle. rewrite (below_not_at_least _ _ Hpos) in Hle. discriminate.
    + intros [H0 _]. discriminate H0.
  - repeat split.
    + intros Hsv. right. apply not_below_at_least; assumption.
    + auto.
    + intros [_ H1]. congruence.
Qed.

(** C6, as stated, fails: a NaN pixel of scaled is NaN in clipped, which is
    neither 0 nor at least 0.7. *)
Lemma nan_pixel_is_kept : ~ residual_claim float32 [[S754_nan]] 0.
Proof.
  intros (clipped & h' & c & s & Hrun & Hc & Hs & Hall).
  rewrite (do_residual_run float32 0 [[S754_nan]] [S754_nan] eq_refl) in Hrun.
  injection Hrun as <- <-. vm_compute in Hc. injection Hc as <-.
  destruct (Hall 0%nat S754_nan eq_refl) as ([Hz|Hle] & _).
  - vm_compute in Hz. discriminate Hz.
  - vm_compute in Hle. discriminate Hle.
Qed.

(** C6, amended: the residual background removal succeeds on every stack,
    leaves scaled as it is, and makes clipped an array of the same length in
    which every pixel whose value in scaled is not NaN is exactly 0 or at least
    0.7, every pixel whose value in scaled is NaN is NaN, every pixel that is
    at least 0.7 has its value in scaled, and no pixel lies strictly between
    0 and 0.7 (0.7 being the literal in the array's element type). *)
Theorem residual_pixels (d : dtype) (h : list (list pixel)) (scaled : nat) (s : list pixel) :
  h !! scaled = Some s ->
  exists clipped h' c,
    do_residual d scaled h = Ok (clipped, h')
    /\ h' !! clipped = Some c /\ h' !! scaled = Some s /\ length c = length s
    /\ forall i v, c !! i = Some v ->
         exists sv, s !! i = Some sv
           /\ (sv <> S754_nan -> v = zero \/ SFleb (astype d lit_0_7) v = true)
           /\ (sv = S754_nan -> v = S754_nan)
           /\ (SFleb (astype d lit_0_7) v = true -> v = sv)
           /\ ~ (SFltb zero v = true /\ SFltb v (astype d lit_0_7) = true).
Proof.
  intros Hs. exists (length h), (h ++ [masked d s]), (masked d s).
  split; [apply do_residual_run; exact Hs|].
  split; [apply list_lookup_middle; reflexivity|].
  split; [rewrite lookup_app_l by (eapply lookup_lt_Some; exact Hs); exact Hs|].
  split; [apply masked_length|].
  intros i v Hv. rewrite masked_lookup in Hv.
  destruct (s !! i) as [sv|] eqn:Hsv; simpl in Hv; [|discriminate].
  injection Hv as <-. exists sv. split; [reflexivity|].
  destruct (threshold_positive d) as [Hpos Hnan].
  exact (masked_pixel (astype d lit_0_7) sv Hpos Hnan).
Qed.

Lemma residual_pixels_witness :
  exists clipped h' c,
    do_residual float32 0 [example_image] = Ok (clipped, h')
    /\ h' !! clipped = Some c /\ h' !! 0%nat = Some example_image
    /\ length c = length example_image
    /\ forall i v, c !! i = Some v ->
         exists sv, example_image !! i = Some sv
           /\ (sv <> S754_nan -> v = zero \/ SFleb (astype float32 lit_0_7) v = true)
           /\ (sv = S754_nan -> v = S754_nan)
           /\ (SFleb (astype float32 lit_0_7) v = true -> v = sv)
           /\ ~ (SFltb zero v = true /\ SFltb v (astype float32 lit_0_7) = true).
Proof. apply (residual_pixels float32 [example_image] 0 example_image). reflexivity. Defined.

(** ** The cells on the heap *)

Section CellFacts.
Context `{Libraries}.

Lemma do_image_Ok e h l h' :
  do_image e h = Ok (l, h') ->
  exists v, get_image e "fov_000" "primary" = Ok v /\ l = length h /\ h' = h ++ [v].
Proof.
  unfold do_image. intros Hrun.
  bind_in Hrun v h1 Hv. apply lift_Ok in Hv as [Hv ->].
  apply alloc_Ok in Hrun as [-> ->]. eauto.
Qed.

Lemma do_background_Ok stack h l h' :
  do_background stack h = Ok (l, h') ->
  exists v w, h !! stack = Some v /\ opening v = Ok w /\ l = length h /\ h' = h ++ [w].
Proof.
  unfold do_background. intros Hrun.
  bind_in Hrun b h1 Hb. apply apply_fresh in Hb as (v & w & Hv & Hw & -> & ->).
  bind_in Hrun u h2 Hd. apply display_Ok in Hd as ->.
  apply ret_Ok in Hrun as [-> ->]. eauto 10.
Qed.

Lemma do_white_tophat_Ok stack h l h' :
  do_white_tophat stack h = Ok (l, h') ->
  exists v w, h !! stack = Some v /\ WhiteTophat v = Ok w /\ l = length h /\ h' = h ++ [w].
Proof.
  unfold do_white_tophat, run. intros Hrun.
  bind_in Hrun b h1 Hb. apply apply_fresh in Hb as (v & w & Hv & Hw & -> & ->).
  bind_in Hrun u h2 Hd. apply display_Ok in Hd as ->.
  apply ret_Ok in Hrun as [-> ->]. eauto 10.
Qed.

Lemma do_clip_Ok stack h l h' :
  do_clip stack h = Ok (l, h') ->
  exists v w, h !! stack = Some v /\ Clip v = Ok w /\ l = length h /\ h' = h ++ [w].
Proof. unfold do_clip, run. apply apply_fresh. Qed.

Lemma do_gaussian_Ok stack h l h' :
  do_gaussian stack h = Ok (l, h') ->
  exists v w, h !! stack = Some v /\ GaussianLowPass v = Ok w /\ l = length h /\ h' = h ++ [w].
Proof. unfold do_gaussian, run, in_place_default. apply apply_fresh. Qed.

Lemma do_local_search_Ok e stack h r h' :
  do_local_search e stack h = Ok (r, h') -> h' = h.
Proof.
  unfold do_local_search. intros Hrun.
  bind_in Hrun i h1 Hi. apply detect_Ok in Hi as [-> _].
  bind_in Hrun d h2 Hd. apply lift_Ok in Hd as [_ ->].
  apply ret_Ok in Hrun as [_ ->]. reflexivity.
Qed.

Lemma do_pixel_decoder_Ok e stack h r h' :
  do_pixel_decoder e stack h = Ok (r, h') -> h' = h.
Proof. unfold do_pixel_decoder. intros Hrun. apply detect_Ok in Hrun as [-> _]. reflexivity. Qed.

Lemma do_label_image_Ok c h l h' :
  do_label_image c h = Ok (l, h') -> exists v, l = length h /\ h' = h ++ [v].
Proof.
  unfold do_label_image. intros Hrun.
  bind_in Hrun a h1 Ha. apply lift_Ok in Ha as [_ ->].
  bind_in Hrun v h2 Hv. apply lift_Ok in Hv as [_ ->].
  bind_in Hrun b h3 Hb. apply alloc_Ok in Hb as [-> ->].
  bind_in Hrun u h4 Hd. apply display_Ok in Hd as ->.
  apply ret_Ok in Hrun as [-> ->]. eauto.
Qed.

(** Reading a stack allocated earlier. *)
Lemma lookup_nth_after (h l : list (list pixel)) (k : nat) :
  (h ++ l) !! (length h + k)%nat = l !! k.
Proof. rewrite lookup_app_r by lia. f_equal. lia. Qed.

(** The heap when the last cell is done: the stacks the notebook made, in the
    order it made them, after the objects that were there before. *)
Lemma notebook_heap h0 sn h' :
  notebook h0 = Ok (sn, h') ->
  exists v_img v_bg v_bc v_sc v_bl v_lab,
    get_image (exp sn) "fov_000" "primary" = Ok v_img
    /\ opening v_img = Ok v_bg
    /\ WhiteTophat v_img = Ok v_bc
    /\ Clip v_bc = Ok v_sc
    /\ GaussianLowPass (masked stack_dtype v_sc) = Ok v_bl
    /\ img sn = (length h0 + 0)%nat
    /\ background sn = (length h0 + 1)%nat
    /\ background_corrected sn = (length h0 + 2)%nat
    /\ scaled sn = (length h0 + 3)%nat
    /\ clipped sn = (length h0 + 4)%nat
    /\ blurred sn = (length h0 + 5)%nat
    /\ label_image sn = (length h0 + 6)%nat
    /\ h' = h0 ++ [v_img; v_bg; v_bc; v_sc; masked stack_dtype v_sc; v_bl; v_lab].
Proof.
  unfold notebook. intros Hrun.
  bind_in Hrun e h1 He. apply lift_Ok in He as [_ ->].
  bind_in Hrun l_img h2 Himg. apply do_image_Ok in Himg as (v_img & Hget & -> & ->).
  bind_in Hrun l_bg h3 Hbg. apply do_background_Ok in Hbg as (v & v_bg & Hv & Hopen & -> & ->).
  rewrite list_lookup_middle in Hv by reflexivity. injection Hv as <-.
  bind_in Hrun l_bc h4 Hbc. apply do_white_tophat_Ok in Hbc as (v & v_bc & Hv & Hwth & -> & ->).
  rewrite <- app_assoc in *. simpl app in *.
  rewrite list_lookup_middle in Hv by reflexivity. injection Hv as <-.
  bind_in Hrun l_sc h5 Hsc. apply do_clip_Ok in Hsc as (v & v_sc & Hv & Hclip & -> & ->).
  rewrite <- app_assoc in *. simpl app in *.
  rewrite length_app in Hv. rewrite lookup_nth_after in Hv. injection Hv as <-.
  bind_in Hrun u h6 Hd. apply display_Ok in Hd as ->.
  bind_in Hrun l_cl h7 Hcl. apply do_residual_Ok in Hcl as (v & Hv & -> & ->).
  rewrite <- app_assoc in *. simpl app in *.
  rewrite length_app in Hv. rewrite lookup_nth_after in Hv. injection Hv as <-.
  bind_in Hrun u1 h8 Hd. apply display_Ok in Hd as ->.
  bind_in Hrun r h9 Hls. destruct r as [ints dec].
  apply do_local_search_Ok in Hls as ->.
  bind_in Hrun u2 h10 Hd. apply display_Ok in Hd as ->.
  bind_in Hrun l_bl h11 Hbl. apply do_gaussian_Ok in Hbl as (v & v_bl & Hv & Hglp & -> & ->).
  rewrite <- app_assoc in *. simpl app in *.
  rewrite length_app in Hv. rewrite lookup_nth_after in Hv. injection Hv as <-.
  bind_in Hrun r h12 Hpd. destruct r as [pdec cc].
  apply do_pixel_decoder_Ok in Hpd as ->.
  bind_in Hrun l_lab h13 Hlab. apply do_label_image_Ok in Hlab as (v_lab & -> & ->).
  rewrite <- app_assoc in *. simpl app in *.
  bind_in Hrun corr h14 Hcorr. apply lift_Ok in Hcorr as [_ ->].
  apply ret_Ok in Hrun as [-> ->]. simpl.
  exists v_img, v_bg, v_bc, v_sc, v_bl, v_lab.
  rewrite ?length_app. simpl length. rewrite <- ?app_assoc. simpl app.
  repeat split; first [assumption | lia | reflexivity].
Qed.

End CellFacts.

(** The notebook runs to its end on the small library. *)
Lemma example_notebook_runs :
  @notebook example_libraries [] = Ok (example_session, example_heap).
Proof. vm_compute. reflexivity. Qed.

(** Without the deep copy the store would change the stack it is applied to:
    the masked store writes the object it is given. *)
Lemma masked_store_changes_its_stack :
  mask_assign float32 0 [example_image] = Ok (tt, [example_clipped])
  /\ example_clipped <> example_image.
Proof.
  split; [vm_compute; reflexivity|].
  unfold example_clipped, example_image, zero, f32. intros [=].
Qed.

(** C5: no call of the notebook passes [in_place=True]: the three that pass
    the keyword pass False, the Gaussian filter is run without it.  When the
    notebook has run, every filtering stage has left its input as it was: the
    stack bound to [img] holds the values it was loaded with, the stack bound
    to [background_corrected] the values the white tophat returned for them,
    the stack bound to [scaled] the values the clip filter returned for those;
    [clipped], which the masked store writes, is another object than [scaled],
    and after the Gaussian filter has run on it [clipped] still holds the
    masked values of [scaled], the result of the filter being held by
    [blurred], another object. *)
Theorem filter_inputs_unchanged `{Libraries} (h0 h' : list (list pixel)) (sn : session) :
  notebook h0 = Ok (sn, h') ->
  passes_in "in_place" ∅ (program SeqFISH.cells)
    = [ ("starfish.data.SeqFISH()[].get_image().apply", BoolE false);
        ("starfish.image.Filter.WhiteTophat().run", BoolE false);
        ("starfish.image.Filter.Clip().run", BoolE false) ]
  /\ exists v_img v_bc v_sc,
       get_image (exp sn) "fov_000" "primary" = Ok v_img
       /\ WhiteTophat v_img = Ok v_bc
       /\ Clip v_bc = Ok v_sc
       /\ h' !! img sn = Some v_img
       /\ h' !! background_corrected sn = Some v_bc
       /\ h' !! scaled sn = Some v_sc
       /\ clipped sn <> scaled sn
       /\ h' !! clipped sn = Some (masked stack_dtype v_sc)
       /\ blurred sn <> clipped sn
       /\ exists v_bl,
            GaussianLowPass (masked stack_dtype v_sc) = Ok v_bl
            /\ h' !! blurred sn = Some v_bl.
Proof.
  intros Hrun. split; [vm_compute; reflexivity|].
  apply notebook_heap in Hrun
    as (v_img & v_bg & v_bc & v_sc & v_bl & v_lab & Hget & _ & Hwth & Hclip & Hglp
        & -> & _ & -> & -> & -> & -> & _ & ->).
  exists v_img, v_bc, v_sc.
  rewrite !lookup_nth_after.
  repeat split; try first [assumption | reflexivity | lia].
  exists v_bl. split; [exact Hglp | reflexivity].
Qed.

Lemma filter_inputs_unchanged_witness :
  passes_in "in_place" ∅ (program SeqFISH.cells)
    = [ ("starfish.data.SeqFISH()[].get_image().apply", BoolE false);
        ("starfish.image.Filter.WhiteTophat().run", BoolE false);
        ("starfish.image.Filter.Clip().run", BoolE false) ]
  /\ exists v_img v_bc v_sc,
       @get_image example_libraries (exp example_session) "fov_000" "primary" = Ok v_img
       /\ @WhiteTophat example_libraries v_img = Ok v_bc
       /\ @Clip example_libraries v_bc = Ok v_sc
       /\ example_heap !! img example_session = Some v_img
       /\ example_heap !! background_corrected example_session = Some v_bc
       /\ example_heap !! scaled example_session = Some v_sc
       /\ clipped example_session <> scaled example_session
       /\ example_heap !! clipped example_session
          = Some (masked (@stack_dtype example_libraries) v_sc)
       /\ blurred example_session <> clipped example_session
       /\ exists v_bl,
            @GaussianLowPass example_libraries
              (masked (@stack_dtype example_libraries) v_sc) = Ok v_bl
            /\ example_heap !! blurred example_session = Some v_bl.
Proof.
  apply (@filter_inputs_unchanged example_libraries [] example_heap example_session).
  vm_compute. reflexivity.
Defined.

(** C3, as stated, fails: one statement of the notebook stores into an object
    that comes from the library, the pixel array of a stack the clip filter
    returned (deep-copied). *)
Lemma clipped_is_stored_into_directly : ~ entities_only_altered_by_library SeqFISH.cells.
Proof.
  unfold entities_only_altered_by_library. rewrite List.Forall_forall. intros Hall.
  specialize (Hall (OpStore "starfish.image.Filter.Clip().run().xarray.values")).
  assert (Hin : In (OpStore "starfish.image.Filter.Clip().run().xarray.values")
                   (op_trace SeqFISH.cells)).
  { apply (nth_error_In _ 14). reflexivity. }
  specialize (Hall Hin). vm_compute in Hall. discriminate Hall.
Qed.

(** C3, amended: the notebook's one store of its own is the masked assignment
    into the pixel array of [clipped]; every other operation on an object is a
    call into a library.  When the notebook has run, what the heap held before
    is as it was, the stacks bound to [img], [background],
    [background_corrected], [scaled] and [blurred] hold what the library
    routine that made them returned, and [clipped] holds the values of [scaled]
    with those below 0.7 replaced by 0. *)
Theorem only_clipped_is_stored_into `{Libraries} (h0 h' : list (list pixel)) (sn : session) :
  notebook h0 = Ok (sn, h') ->
  List.filter is_store (op_trace SeqFISH.cells)
    = [ OpStore "starfish.image.Filter.Clip().run().xarray.values" ]
  /\ List.filter (fun o => negb (is_call o || is_store o)) (op_trace SeqFISH.cells)
     = [ OpCompare CmpLt; OpCompare CmpNotEq; OpCompare CmpNotEq ]
  /\ (forall l v, h0 !! l = Some v -> h' !! l = Some v)
  /\ exists v_img v_bg v_bc v_sc v_bl,
       get_image (exp sn) "fov_000" "primary" = Ok v_img
       /\ opening v_img = Ok v_bg
       /\ WhiteTophat v_img = Ok v_bc
       /\ Clip v_bc = Ok v_sc
       /\ GaussianLowPass (masked stack_dtype v_sc) = Ok v_bl
       /\ h' !! img sn = Some v_img
       /\ h' !! background sn = Some v_bg
       /\ h' !! background_corrected sn = Some v_bc
       /\ h' !! scaled sn = Some v_sc
       /\ h' !! clipped sn = Some (masked stack_dtype v_sc)
       /\ h' !! blurred sn = Some v_bl.
Proof.
  intros Hrun. split; [vm_compute; reflexivity|]. split; [vm_compute; reflexivity|].
  apply notebook_heap in Hrun
    as (v_img & v_bg & v_bc & v_sc & v_bl & v_lab & Hget & Hopen & Hwth & Hclip & Hglp
        & -> & -> & -> & -> & -> & -> & _ & ->).
  split.
  - intros l v Hl. rewrite lookup_app_l by (eapply lookup_lt_Some; exact Hl). exact Hl.
  - exists v_img, v_bg, v_bc, v_sc, v_bl.
    rewrite !lookup_nth_after. repeat split; first [assumption | reflexivity].
Qed.

Lemma only_clipped_is_stored_into_witness :
  List.filter is_store (op_trace SeqFISH.cells)
    = [ OpStore "starfish.image.Filter.Clip().run().xarray.values" ]
  /\ List.filter (fun o => negb (is_call o || is_store o)) (op_trace SeqFISH.cells)
     = [ OpCompare CmpLt; OpCompare CmpNotEq; OpCompare CmpNotEq ]
  /\ (forall l v, @nil (list pixel) !! l = Some v -> example_heap !! l = Some v)
  /\ exists v_img v_bg v_bc v_sc v_bl,
       @get_image example_libraries (exp example_session) "fov_000" "primary" = Ok v_img
       /\ @opening example_libraries v_img = Ok v_bg
       /\ @WhiteTophat example_libraries v_img = Ok v_bc
       /\ @Clip example_libraries v_bc = Ok v_sc
       /\ @GaussianLowPass example_libraries
            (masked (@stack_dtype example_libraries) v_sc) = Ok v_bl
       /\ example_heap !! img example_session = Some v_img
       /\ example_heap !! background example_session = Some v_bg
       /\ example_heap !! background_corrected example_session = Some v_bc
       /\ example_heap !! scaled example_session = Some v_sc
       /\ example_heap !! clipped example_session
          = Some (masked (@stack_dtype example_libraries) v_sc)
       /\ example_heap !! blurred example_session = Some v_bl.
Proof.
  apply (@only_clipped_is_stored_into example_libraries [] example_heap example_session).
  vm_compute. reflexivity.
Defined.

(** ** Exceptions in the cells *)

Lemma cell_is_straight_line (k : nat) (body : list stmt) :
  code_cells SeqFISH.cells !! k = Some body ->
  forallb is_simple body = true
  /\ existsb handles body = false
  /\ existsb raises body = false.
Proof.
  intros Hk.
  do 18 (destruct k as [|k];
         [vm_compute in Hk; injection Hk as <-; repeat split; vm_compute; reflexivity|]).
  vm_compute in Hk. discriminate Hk.
Qed.

(** C4: no cell contains a handler (try, with) or a raise of its own; and
    whatever the statements do, when the statements of a cell before [s] have
    run and [s] raises [e], the cell ends with that same exception [e], in the
    state in which it was raised: nothing after [s] runs, nothing catches or
    replaces [e]. *)
Theorem exceptions_propagate_uncaught {St Exn : Type}
  (step : stmt -> St -> St + Exn)
  (truth : expr -> St -> bool + Exn)
  (next : expr -> expr -> nat -> St -> option St + Exn)
  (catches : expr -> Exn -> bool)
  (enter : expr -> St -> St + Exn)
  (leave : expr -> option Exn -> St -> St * bool)
  (k : nat) (body pre post : list stmt) (s : stmt) (st st' : St) (e : Exn) (fuel : nat) :
  code_cells SeqFISH.cells !! k = Some body ->
  body = pre ++ s :: post ->
  (length body <= fuel)%nat ->
  exec step truth next catches enter leave fuel pre st = Finished st' ->
  step s st' = inr e ->
  existsb handles body = false
  /\ existsb raises body = false
  /\ exec step truth next catches enter leave fuel body st = Raised e st'.
Proof.
  intros Hk Hbody Hfuel Hpre Hs.
  destruct (cell_is_straight_line k body Hk) as (Hsimple & Hh & Hr).
  repeat split; [exact Hh | exact Hr |].
  eapply straight_line_propagates; eassumption.
Qed.

Lemma exceptions_propagate_uncaught_witness :
  existsb handles SeqFISH.cell_clip = false
  /\ existsb raises SeqFISH.cell_clip = false
  /\ exec example_step (fun _ _ => inl true) (fun _ _ _ _ => inl None) (fun _ _ => true)
          (fun _ n => inl n) (fun _ _ n => (n, true)) 2 SeqFISH.cell_clip 0%nat
     = Raised "ValueError" 1%nat.
Proof.
  apply (exceptions_propagate_uncaught
           example_step (fun _ _ => inl true) (fun _ _ _ _ => inl None) (fun _ _ => true)
           (fun _ n => inl n) (fun _ _ n => (n, true))
           6 SeqFISH.cell_clip
           [ Assign (Name "clip")
               (Call (SeqFISH.starfish_image_Filter "Clip") []
                     [("p_max", Decimal 999 (-1));
                      ("expand_dynamic_range", BoolE true);
                      ("is_volume", BoolE true)]) ]
           []
           (Assign (Name "scaled")
              (Call (Attr (Name "clip") "run") [Name "background_corrected"]
                    [("in_place", BoolE false)]))
           0%nat 1%nat "ValueError" 2).
  - reflexivity.
  - reflexivity.
  - simpl. lia.
  - reflexivity.
  - reflexivity.
Defined.

(** ** Counting target labels *)

Lemma np_sum_counts (labels : list string) (s : string) :
  np_sum (np_not_equal labels s)
  = Z.of_nat (length (List.filter (fun x => negb (String.eqb x s)) labels)).
Proof.
  unfold np_sum, np_not_equal.
  induction labels as [|x labels IH]; simpl; [reflexivity|].
  rewrite IH. destruct (String.eqb x s); cbn [negb Z.b2z length]; lia.
Qed.

Lemma ascii_compare_refl (c : ascii) : Ascii.compare c c = Eq.
Proof. unfold Ascii.compare. apply N.compare_refl. Qed.

Lemma compare_refl (x : string) : String.compare x x = Eq.
Proof.
  induction x as [|c x IH]; simpl; [reflexivity|].
  rewrite ascii_compare_refl. exact IH.
Qed.

Lemma before_irrefl (x : string) : ~ before x x.
Proof. unfold before. rewrite compare_refl. discriminate. Qed.

Lemma ascii_compare_trans (a b c : ascii) :
  Ascii.compare a b = Lt -> Ascii.compare b c = Lt -> Ascii.compare a c = Lt.
Proof.
  unfold Ascii.compare. rewrite !N.compare_lt_iff. apply N.lt_trans.
Qed.

Lemma before_trans (x y z : string) : before x y -> before y z -> before x z.
Proof.
  unfold before. revert y z.
  induction x as [|a x IH]; intros [|b y] [|c z]; simpl; try discriminate; try reflexivity.
  destruct (Ascii.compare a b) eqn:Hab; try discriminate;
    destruct (Ascii.compare b c) eqn:Hbc; try discriminate; intros Hxy Hyz.
  - apply Ascii.compare_eq_iff in Hab as ->. rewrite Hbc. eapply IH; eassumption.
  - apply Ascii.compare_eq_iff in Hab as ->. rewrite Hbc. reflexivity.
  - apply Ascii.compare_eq_iff in Hbc as <-. rewrite Hab. reflexivity.
  - rewrite (ascii_compare_trans _ _ _ Hab Hbc). reflexivity.
Qed.

Lemma after_before (x y : string) : String.compare x y = Gt -> before y x.
Proof.
  unfold before. rewrite (String.compare_antisym x y).
  destruct (String.compare y x); simpl; congruence.
Qed.

Lemma entry_not_key (x : string) (table : list (string * nat)) :
  Forall (before x) (List.map fst table) -> entry x table = None.
Proof.
  unfold entry. induction table as [|[y n] rest IH]; simpl; intros Hall; [reflexivity|].
  apply Forall_cons in Hall as [Hxy Hrest].
  destruct (String.eqb_spec y x) as [->|Hne].
  - exfalso. exact (before_irrefl x Hxy).
  - apply IH. exact Hrest.
Qed.

Lemma tally_keys_after (y x : string) (table : list (string * nat)) :
  before y x -> Forall (before y) (List.map fst table) ->
  Forall (before y) (List.map fst (tally x table)).
Proof.
  intros Hyx. induction table as [|[z n] rest IH]; simpl; intros Hall.
  - repeat constructor. exact Hyx.
  - apply Forall_cons in Hall as [Hyz Hrest].
    destruct (String.compare x z); simpl.
    + constructor; assumption.
    + constructor; [exact Hyx|]. constructor; assumption.
    + constructor; [exact Hyz|]. apply IH. exact Hrest.
Qed.

Lemma tally_sorted (x : string) (table : list (string * nat)) :
  StronglySorted before (List.map fst table) ->
  StronglySorted before (List.map fst (tally x table)).
Proof.
  induction table as [|[y n] rest IH]; simpl; intros Hs.
  - repeat constructor.
  - apply StronglySorted_inv in Hs as [Hrest Hy].
    destruct (String.compare x y) eqn:Hc; simpl.
    + constructor; assumption.
    + constructor; [constructor; assumption|].
      constructor; [exact Hc|].
      eapply List.Forall_impl; [|exact Hy]. intros z Hz. eapply before_trans; eassumption.
    + constructor; [apply IH; exact Hrest|].
      apply tally_keys_after; [apply after_before; exact Hc | exact Hy].
Qed.

Lemma table_sorted (labels : list string) :
  StronglySorted before (List.map fst (table_of labels)).
Proof.
  unfold table_of. induction labels as [|x labels IH]; simpl.
  - constructor.
  - apply tally_sorted. exact IH.
Qed.

Lemma entry_tally (z x : string) (table : list (string * nat)) :
  StronglySorted before (List.map fst table) ->
  entry z (tally x table)
  = if String.eqb z x then Some (S (default 0%nat (entry z table))) else entry z table.
Proof.
  induction table as [|[y n] rest IH]; simpl; intros Hs.
  - unfold entry. simpl. rewrite (String.eqb_sym x z). destruct (String.eqb z x); reflexivity.
  - apply StronglySorted_inv in Hs as [Hrest Hy].
    destruct (String.compare x y) eqn:Hc.
    + apply String.compare_eq_iff in Hc as ->.
      unfold entry. simpl. rewrite (String.eqb_sym y z).
      destruct (String.eqb z y); reflexivity.
    + destruct (String.eqb_spec z x) as [->|Hne].
      * rewrite (entry_not_key x ((y, n) :: rest)).
        -- unfold entry. simpl. rewrite String.eqb_refl. reflexivity.
        -- simpl. constructor; [exact Hc|].
           eapply List.Forall_impl; [|exact Hy]. intros w Hw. eapply before_trans; eassumption.
      * unfold entry. simpl. rewrite (proj2 (String.eqb_neq x z)) by congruence. reflexivity.
    + specialize (IH Hrest). unfold entry in *. simpl.
      destruct (String.eqb_spec y z) as [->|Hyz].
      * simpl. destruct (String.eqb_spec z x) as [->|Hne]; [|reflexivity].
        rewrite compare_refl in Hc. discriminate.
      * exact IH.
Qed.

(** The table holds, for each label, the number of its occurrences; labels
    that do not occur have no entry. *)
Lemma entry_table_of (z : string) (labels : list string) :
  entry z (table_of labels)
  = match occurrences z labels with O => None | n => Some n end.
Proof.
  unfold occurrences. induction labels as [|x labels IH]; [reflexivity|].
  change (table_of (x :: labels)) with (tally x (table_of labels)).
  rewrite entry_tally by apply table_sorted. rewrite IH. simpl.
  destruct (string_dec x z) as [->|Hne].
  - rewrite String.eqb_refl. destruct (count_occ string_dec labels z); reflexivity.
  - rewrite (proj2 (String.eqb_neq z x)) by congruence. reflexivity.
Qed.

Lemma entry_None_iff (z : string) (table : list (string * nat)) :
  entry z table = None <-> ~ In z (List.map fst table).
Proof.
  unfold entry. induction table as [|[y n] rest IH]; simpl.
  - tauto.
  - destruct (String.eqb_spec y z) as [->|Hne]; simpl.
    + split; [discriminate | tauto].
    + rewrite IH. tauto.
Qed.

(** The labels of the table are the labels that occur. *)
Lemma table_keys (z : string) (labels : list string) :
  In z (List.map fst (table_of labels)) <-> In z labels.
Proof.
  destruct (in_dec string_dec z (List.map fst (table_of labels))) as [Hin|Hout].
  - split; [intros _ | tauto].
    assert (He : entry z (table_of labels) <> None) by (rewrite entry_None_iff; tauto).
    rewrite entry_table_of in He. unfold occurrences in He.
    apply (count_occ_In string_dec). destruct (count_occ string_dec labels z); [congruence | lia].
  - split; [tauto | intros Hz]. exfalso.
    apply entry_None_iff in Hout. rewrite entry_table_of in Hout. unfold occurrences in Hout.
    apply (count_occ_In string_dec) in Hz.
    destruct (count_occ string_dec labels z); [lia | discriminate].
Qed.

Lemma sorted_NoDup (l : list string) : StronglySorted before l -> List.NoDup l.
Proof.
  induction 1 as [|x l Hs IH Hx]; constructor; [|exact IH].
  intros Hin. rewrite List.Forall_forall in Hx. exact (before_irrefl x (Hx x Hin)).
Qed.

Lemma combine_fst_snd {A B} (l : list (A * B)) :
  combine (List.map fst l) (List.map snd l) = l.
Proof. induction l as [|[a b] l IH]; simpl; [reflexivity | rewrite IH; reflexivity]. Qed.

Lemma gene_counts_Ok (targets : list string) :
  gene_counts targets
  = Ok {| data := List.map snd (table_of targets); index := List.map fst (table_of targets) |}.
Proof.
  unfold gene_counts, np_unique_counts, pd_Series. fold (table_of targets).
  rewrite !length_map. rewrite Nat.eqb_refl. reflexivity.
Qed.

Lemma Series_get_counts (targets : list string) (z : string) :
  In z targets ->
  Series_get {| data := List.map snd (table_of targets);
                index := List.map fst (table_of targets) |} z
  = Ok (occurrences z targets).
Proof.
  intros Hz. unfold Series_get. simpl. rewrite combine_fst_snd.
  pose proof (entry_table_of z targets) as He. unfold entry in He.
  apply (count_occ_In string_dec) in Hz. fold (occurrences z targets) in Hz.
  destruct (List.find _ (table_of targets)) as [kv|]; simpl in He;
    destruct (occurrences z targets); try lia; congruence.
Qed.

Lemma Series_getitem_counts (targets labels : list string) :
  Forall (fun z => In z targets) labels ->
  Series_getitem {| data := List.map snd (table_of targets);
                    index := List.map fst (table_of targets) |} labels
  = Ok (List.map (fun z => occurrences z targets) labels).
Proof.
  induction labels as [|z labels IH]; intros Hall; [reflexivity|].
  apply Forall_cons in Hall as [Hz Hrest].
  cbn [Series_getitem]. rewrite (Series_get_counts _ _ Hz). rewrite (IH Hrest). reflexivity.
Qed.

Lemma mem_In (x : string) (l : list string) : mem x l = true <-> In x l.
Proof.
  unfold mem. rewrite existsb_exists. split.
  - intros (y & Hy & He). apply String.eqb_eq in He as ->. exact Hy.
  - intros Hx. exists x. split; [exact Hx | apply String.eqb_refl].
Qed.

Lemma filter_sorted (f : string -> bool) (l : list string) :
  StronglySorted before l -> StronglySorted before (List.filter f l).
Proof.
  induction 1 as [|x l Hs IH Hx]; simpl; [constructor|].
  destruct (f x); [|exact IH]. constructor; [exact IH|].
  rewrite List.Forall_forall in *. intros y Hy. apply List.filter_In in Hy as [Hy _]. auto.
Qed.

(** When both detectors have a target labelled 'nan', the last cell hands to
    [pearsonr] the counts of the labels that occur in both outputs, 'nan'
    left out: each label once, in increasing order, its number of occurrences
    in the one output paired with that in the other. *)
Lemma correlation_inputs_with_nan (pixel_targets local_targets : list string) :
  In "nan" pixel_targets -> In "nan" local_targets ->
  exists codetected,
    correlation_inputs pixel_targets local_targets
    = Ok (codetected,
          List.map (fun z => occurrences z pixel_targets) codetected,
          List.map (fun z => occurrences z local_targets) codetected)
    /\ List.NoDup codetected
    /\ StronglySorted before codetected
    /\ forall z, In z codetected
                 <-> In z pixel_targets /\ In z local_targets /\ z <> "nan".
Proof.
  intros Hp Hl.
  set (keys_p := List.map fst (table_of pixel_targets)).
  set (keys_l := List.map fst (table_of local_targets)).
  set (both := Index_intersection keys_p keys_l).
  set (codetected := List.filter (fun x => negb (String.eqb x "nan")) both).
  assert (Hboth : forall z, In z both <-> In z pixel_targets /\ In z local_targets).
  { intros z. unfold both, Index_intersection. rewrite List.filter_In, mem_In.
    unfold keys_p, keys_l. rewrite !table_keys. tauto. }
  assert (Hco : forall z, In z codetected
                          <-> In z pixel_targets /\ In z local_targets /\ z <> "nan").
  { intros z. unfold codetected. rewrite List.filter_In, Hboth, negb_true_iff, String.eqb_neq.
    tauto. }
  assert (Hsorted : StronglySorted before codetected).
  { unfold codetected, both, Index_intersection. do 2 apply filter_sorted. apply table_sorted. }
  exists codetected. split; [|split; [apply sorted_NoDup; exact Hsorted | split; assumption]].
  unfold correlation_inputs. rewrite !gene_counts_Ok. cbn [mbind result_bind index].
  fold keys_p keys_l both. unfold Index_drop.
  rewrite (proj2 (mem_In "nan" both)) by (apply Hboth; tauto).
  fold codetected. cbn [mbind result_bind].
  rewrite !Series_getitem_counts; [reflexivity | |];
    apply List.Forall_forall; intros z Hz; apply Hco in Hz; tauto.
Qed.

(** When one detector has no target labelled 'nan', dropping 'nan' raises. *)
Lemma correlation_inputs_without_nan (pixel_targets local_targets : list string) :
  ~ (In "nan" pixel_targets /\ In "nan" local_targets) ->
  correlation_inputs pixel_targets local_targets = Fail (KeyError "nan").
Proof.
  intros Hnan. unfold correlation_inputs. rewrite !gene_counts_Ok.
  cbn [mbind result_bind index]. unfold Index_drop.
  destruct (mem "nan" _) eqn:Hm; [|reflexivity].
  exfalso. apply Hnan. apply mem_In in Hm.
  unfold Index_intersection in Hm. apply List.filter_In in Hm as [H1 H2].
  apply mem_In in H2. rewrite table_keys in H1, H2. tauto.
Qed.






(** * Further facts about the cells *)

(** ** The masked store *)

(** The masked store applied to a stack it has been applied to changes
    nothing: what it kept is not below the threshold, what it replaced is 0
    and is replaced by 0 again. *)
Theorem mask_assign_twice (d : dtype) (stack : nat) (h h1 : list (list pixel)) :
  mask_assign d stack h = Ok (tt, h1) ->
  mask_assign d stack h1 = Ok (tt, h1).
Proof.
  unfold mask_assign, bind, load, store.
  destruct (h !! stack) as [s|] eqn:Hs; [|discriminate].
  intros [= <-].
  rewrite list_lookup_insert_eq by (eapply lookup_lt_Some; exact Hs).
  rewrite list_insert_insert_eq.
  do 3 f_equal.
  unfold masked. rewrite !np_setitem_mask_less. rewrite List.map_map.
  apply List.map_ext. intros v.
  destruct (threshold_positive d) as [Hpos _].
  destruct (SFltb v (astype d lit_0_7)) eqn:Hv.
  - rewrite Hpos. reflexivity.
  - rewrite Hv. reflexivity.
Qed.

Lemma mask_assign_twice_witness :
  mask_assign float32 0 [example_clipped] = Ok (tt, [example_clipped]).
Proof.
  apply (mask_assign_twice float32 0 [example_image] [example_clipped]).
  vm_compute. reflexivity.
Defined.

(** The residual background removal makes one new stack and leaves every
    stack there was as it is: the reference it returns was not in use, the
    heap has one object more, and every object holds what it held. *)
Theorem do_residual_frame (d : dtype) (scaled clipped : nat) (h h' : list (list pixel)) :
  do_residual d scaled h = Ok (clipped, h') ->
  h !! clipped = None
  /\ length h' = S (length h)
  /\ forall l v, h !! l = Some v -> h' !! l = Some v.
Proof.
  intros Hrun. apply do_residual_Ok in Hrun as (s & Hs & -> & ->).
  split; [apply lookup_ge_None; lia|].
  split; [rewrite length_app; simpl; lia|].
  intros l v Hl. rewrite lookup_app_l by (eapply lookup_lt_Some; exact Hl). exact Hl.
Qed.

Lemma do_residual_frame_witness :
  [example_image; example_image] !! 2%nat = None
  /\ length [example_image; example_image; example_clipped] = 3%nat
  /\ forall l v, [example_image; example_image] !! l = Some v ->
                 [example_image; example_image; example_clipped] !! l = Some v.
Proof.
  apply (do_residual_frame float32 1 2 [example_image; example_image]
           [example_image; example_image; example_clipped]).
  vm_compute. reflexivity.
Defined.

(** ** The label image *)

(** The label image cell works for one size only: unless the decoded image
    has exactly 1 * 1 * 29 * 280 * 280 = 2273600 values, the reshape raises
    ValueError, before any stack is made or displayed. *)
Theorem label_image_needs_the_fixed_shape `{Libraries}
  (c : ConnectedComponentDecodingResult) (h : list (list pixel)) :
  Zlength (decoded_image c) <> 2273600 ->
  do_label_image c h = Fail (ValueError "cannot reshape array").
Proof.
  intros Hsize. unfold do_label_image, bind, lift, np_reshape.
  change (foldr Z.mul 1 [1; 1; 29; 280; 280]) with 2273600.
  destruct (Z.eqb_spec (Zlength (decoded_image c)) 2273600) as [Heq|_];
    [contradiction | reflexivity].
Qed.

Lemma label_image_needs_the_fixed_shape_witness :
  @do_label_image example_libraries 3%N [] = Fail (ValueError "cannot reshape array").
Proof.
  apply (@label_image_needs_the_fixed_shape example_libraries 3%N []).
  vm_compute. intros [=].
Defined.

(** ** Counts *)

Lemma tally_sum (x : string) (table : list (string * nat)) :
  list_sum (List.map snd (tally x table)) = S (list_sum (List.map snd table)).
Proof.
  induction table as [|[y n] rest IH]; simpl; [reflexivity|].
  destruct (String.compare x y); simpl; try rewrite IH; lia.
Qed.

Lemma tally_positive (x : string) (table : list (string * nat)) :
  List.Forall (fun n => (0 < n)%nat) (List.map snd table) ->
  List.Forall (fun n => (0 < n)%nat) (List.map snd (tally x table)).
Proof.
  induction table as [|[y n] rest IH]; simpl; intros Hall.
  - repeat constructor.
  - apply List.Forall_cons_iff in Hall as [Hn Hrest].
    destruct (String.compare x y); simpl; repeat constructor; auto; lia.
Qed.

Lemma not_nan_and_nan (targets : list string) (s : string) :
  (length (List.filter (fun x => negb (String.eqb x s)) targets) + occurrences s targets
   = length targets)%nat.
Proof.
  unfold occurrences. induction targets as [|x targets IH]; simpl; [reflexivity|].
  destruct (string_dec x s) as [->|Hne].
  - rewrite String.eqb_refl. simpl. lia.
  - rewrite (proj2 (String.eqb_neq x s) Hne). simpl. lia.
Qed.

(** The counts of a detector's Series add up to the number of its decoded
    entries, each count is at least 1, and the number of spots printed and
    the number of entries labelled 'nan' add up to the same total. *)
Theorem counts_add_up (targets : list string) :
  exists s, gene_counts targets = Ok s
    /\ list_sum (data s) = length targets
    /\ List.Forall (fun n => (0 < n)%nat) (data s)
    /\ spots_detected targets + Z.of_nat (occurrences "nan" targets)
       = Z.of_nat (length targets).
Proof.
  eexists. split; [apply gene_counts_Ok|]. cbn [data].
  split; [|split].
  - unfold table_of. induction targets as [|x targets IH]; simpl; [reflexivity|].
    rewrite tally_sum, IH. reflexivity.
  - unfold table_of. induction targets as [|x targets IH]; simpl; [constructor|].
    apply tally_positive. exact IH.
  - unfold spots_detected. rewrite np_sum_counts.
    pose proof (not_nan_and_nan targets "nan"). lia.
Qed.

(** ** The labels handed to the correlation *)

Lemma Series_getitem_length (s : Series) (labels : list string) (values : list nat) :
  Series_getitem s labels = Ok values -> length values = length labels.
Proof.
  revert values. induction labels as [|l labels IH]; intros values; cbn [Series_getitem].
  - intros [= <-]. reflexivity.
  - destruct (Series_get s l) as [v|e]; cbn [mbind result_bind]; [|discriminate].
    destruct (Series_getitem s labels) as [vs|e]; cbn [mbind result_bind]; [|discriminate].
    intros [= <-]. simpl. rewrite (IH vs eq_refl). reflexivity.
Qed.

(** The last cell reaches [pearsonr] exactly when both detectors have a target
    labelled 'nan'; the one exception it raises before that is KeyError for
    'nan'; and when it reaches [pearsonr] the two vectors of counts are as long
    as the list of labels, in which 'nan' is not. *)
Theorem correlation_needs_nan_in_both (pixel_targets local_targets : list string) :
  ((In "nan" pixel_targets /\ In "nan" local_targets)
   <-> exists r, correlation_inputs pixel_targets local_targets = Ok r)
  /\ (forall e, correlation_inputs pixel_targets local_targets = Fail e -> e = KeyError "nan")
  /\ (forall codetected x y,
        correlation_inputs pixel_targets local_targets = Ok (codetected, x, y) ->
        length x = length codetected /\ length y = length codetected
        /\ ~ In "nan" codetected).
Proof.
  destruct (in_dec string_dec "nan" pixel_targets) as [Hp|Hp];
    [destruct (in_dec string_dec "nan" local_targets) as [Hl|Hl]|].
  - destruct (correlation_inputs_with_nan _ _ Hp Hl) as (c & Hrun & _ & _ & Hco).
    rewrite Hrun. split; [|split].
    + split; [eauto | tauto].
    + discriminate.
    + intros c' x y [= <- <- <-]. rewrite !length_map.
      split; [reflexivity|]. split; [reflexivity|]. intros Hin. apply Hco in Hin. tauto.
  - rewrite correlation_inputs_without_nan by tauto. split; [|split].
    + split; [tauto | intros [r Hr]; discriminate Hr].
    + intros e [= <-]. reflexivity.
    + discriminate.
  - rewrite correlation_inputs_without_nan by tauto. split; [|split].
    + split; [tauto | intros [r Hr]; discriminate Hr].
    + intros e [= <-]. reflexivity.
    + discriminate.
Qed.

Lemma before_asym (x y : string) : before x y -> ~ before y x.
Proof. intros Hxy Hyx. exact (before_irrefl x (before_trans _ _ _ Hxy Hyx)). Qed.

(** Two increasing lists with the same labels are the same list. *)
Lemma sorted_ext (l1 l2 : list string) :
  StronglySorted before l1 -> StronglySorted before l2 ->
  (forall z, In z l1 <-> In z l2) -> l1 = l2.
Proof.
  revert l2. induction l1 as [|x l1 IH]; intros [|y l2] H1 H2 Hsame.
  - reflexivity.
  - exfalso. apply (Hsame y). left. reflexivity.
  - exfalso. apply (Hsame x). left. reflexivity.
  - apply StronglySorted_inv in H1 as [H1 Hx]. apply StronglySorted_inv in H2 as [H2 Hy].
    rewrite List.Forall_forall in Hx, Hy.
    assert (Hxy : x = y).
    { destruct (proj1 (Hsame x) (or_introl eq_refl)) as [Heq|Hin]; [congruence|].
      destruct (proj2 (Hsame y) (or_introl eq_refl)) as [Heq|Hin']; [congruence|].
      exfalso. exact (before_asym _ _ (Hx y Hin') (Hy x Hin)). }
    subst y. f_equal. apply IH; [assumption | assumption |].
    intros z. split; intros Hz.
    + destruct (proj1 (Hsame z) (or_intror Hz)) as [Heq|Hin]; [|exact Hin].
      subst z. exfalso. exact (before_irrefl x (Hx x Hz)).
    + destruct (proj2 (Hsame z) (or_intror Hz)) as [Heq|Hin]; [|exact Hin].
      subst z. exfalso. exact (before_irrefl x (Hy x Hz)).
Qed.

(** Which detector comes first does not matter: with the two outputs
    exchanged the last cell hands [pearsonr] the same labels and the two
    vectors of counts exchanged, or raises the same exception. *)
Theorem correlation_inputs_exchange (pixel_targets local_targets : list string) :
  correlation_inputs local_targets pixel_targets
  = match correlation_inputs pixel_targets local_targets with
    | Ok (codetected, x, y) => Ok (codetected, y, x)
    | Fail e => Fail e
    end.
Proof.
  destruct (in_dec string_dec "nan" pixel_targets) as [Hp|Hp];
    [destruct (in_dec string_dec "nan" local_targets) as [Hl|Hl]|].
  - destruct (correlation_inputs_with_nan _ _ Hp Hl) as (c1 & Hrun1 & _ & Hs1 & Hco1).
    destruct (correlation_inputs_with_nan _ _ Hl Hp) as (c2 & Hrun2 & _ & Hs2 & Hco2).
    assert (Hc : c2 = c1).
    { apply sorted_ext; [assumption | assumption |].
      intros z. rewrite Hco1, Hco2. tauto. }
    subst c2. rewrite Hrun1, Hrun2. reflexivity.
  - rewrite !correlation_inputs_without_nan by tauto. reflexivity.
  - rewrite !correlation_inputs_without_nan by tauto. reflexivity.
Qed.

(** ** The order of the decoded entries *)

Lemma entry_cons (z x : string) (n : nat) (rest : list (string * nat)) :
  entry z ((x, n) :: rest) = if String.eqb x z then Some n else entry z rest.
Proof. unfold entry. simpl. destruct (String.eqb x z); reflexivity. Qed.

Lemma entry_Some_key (z : string) (n : nat) (table : list (string * nat)) :
  entry z table = Some n -> In z (List.map fst table).
Proof.
  intros He. destruct (in_dec string_dec z (List.map fst table)) as [Hin|Hout]; [exact Hin|].
  apply entry_None_iff in Hout. congruence.
Qed.

(** Two tables in increasing order that hold the same counts are the same
    table. *)
Lemma sorted_table_ext (t1 t2 : list (string * nat)) :
  StronglySorted before (List.map fst t1) -> StronglySorted before (List.map fst t2) ->
  (forall z, entry z t1 = entry z t2) -> t1 = t2.
Proof.
  revert t2. induction t1 as [|[x n] r1 IH]; intros [|[y m] r2] H1 H2 Hsame.
  - reflexivity.
  - specialize (Hsame y). rewrite entry_cons, String.eqb_refl in Hsame. discriminate.
  - specialize (Hsame x). rewrite entry_cons, String.eqb_refl in Hsame. discriminate.
  - simpl in H1, H2.
    apply StronglySorted_inv in H1 as [H1 Hx]. apply StronglySorted_inv in H2 as [H2 Hy].
    assert (Hxy : x = y).
    { destruct (string_dec x y) as [Heq|Hne]; [exact Heq|]. exfalso.
      pose proof (Hsame x) as Ex. pose proof (Hsame y) as Ey.
      rewrite !entry_cons, String.eqb_refl in Ex, Ey.
      rewrite (proj2 (String.eqb_neq y x)) in Ex by congruence.
      rewrite (proj2 (String.eqb_neq x y)) in Ey by congruence.
      symmetry in Ex. apply entry_Some_key in Ex. apply entry_Some_key in Ey.
      rewrite List.Forall_forall in Hx, Hy.
      exact (before_asym _ _ (Hx y Ey) (Hy x Ex)). }
    subst y.
    pose proof (Hsame x) as Ex. rewrite !entry_cons, String.eqb_refl in Ex.
    injection Ex as ->. f_equal. apply IH; [assumption | assumption |].
    intros z. destruct (string_dec x z) as [<-|Hne].
    + rewrite !entry_not_key by assumption. reflexivity.
    + specialize (Hsame z). rewrite !entry_cons in Hsame.
      rewrite (proj2 (String.eqb_neq x z)) in Hsame by assumption. exact Hsame.
Qed.

Lemma table_of_Permutation (targets targets' : list string) :
  Permutation targets targets' -> table_of targets = table_of targets'.
Proof.
  intros Hperm. apply sorted_table_ext; try apply table_sorted.
  intros z. rewrite !entry_table_of. unfold occurrences.
  rewrite (proj1 (Permutation_count_occ string_dec targets targets') Hperm z). reflexivity.
Qed.

(** The order in which a detector lists its decoded entries does not matter:
    listed in another order, the number of spots printed, the Series of counts
    and what the last cell hands to [pearsonr] (or the exception it raises) are
    the same. *)
Theorem comparison_ignores_entry_order
  (pixel_targets pixel_targets' local_targets local_targets' : list string) :
  Permutation pixel_targets pixel_targets' ->
  Permutation local_targets local_targets' ->
  spots_detected pixel_targets = spots_detected pixel_targets'
  /\ gene_counts pixel_targets = gene_counts pixel_targets'
  /\ correlation_inputs pixel_targets local_targets
     = correlation_inputs pixel_targets' local_targets'.
Proof.
  intros Hp Hl.
  assert (Hgp : gene_counts pixel_targets = gene_counts pixel_targets')
    by (rewrite !gene_counts_Ok, (table_of_Permutation _ _ Hp); reflexivity).
  assert (Hgl : gene_counts local_targets = gene_counts local_targets')
    by (rewrite !gene_counts_Ok, (table_of_Permutation _ _ Hl); reflexivity).
  split; [|split; [exact Hgp|]].
  - unfold spots_detected. rewrite !np_sum_counts.
    pose proof (not_nan_and_nan pixel_targets "nan") as H1.
    pose proof (not_nan_and_nan pixel_targets' "nan") as H2.
    pose proof (Permutation_length Hp) as Hlen.
    unfold occurrences in *.
    rewrite (proj1 (Permutation_count_occ string_dec _ _) Hp "nan") in H1. lia.
  - unfold correlation_inputs. rewrite Hgp, Hgl. reflexivity.
Qed.

Lemma comparison_ignores_entry_order_witness :
  spots_detected ["Gja1"; "nan"; "Acta2"] = spots_detected ["nan"; "Gja1"; "Acta2"]
  /\ gene_counts ["Gja1"; "nan"; "Acta2"] = gene_counts ["nan"; "Gja1"; "Acta2"]
  /\ correlation_inputs ["Gja1"; "nan"; "Acta2"] ["nan"; "Acta2"]
     = correlation_inputs ["nan"; "Gja1"; "Acta2"] ["Acta2"; "nan"].
Proof.
  apply (comparison_ignores_entry_order
           ["Gja1"; "nan"; "Acta2"] ["nan"; "Gja1"; "Acta2"] ["nan"; "Acta2"] ["Acta2"; "nan"]).
  - apply perm_swap.
  - apply perm_swap.
Defined.

(** ** Names *)

(** Run in the order of the document, no cell reads a name that no import or
    assignment before it has bound, the builtins [print] and [int] apart; and
    the imports of os, product, skimage (two of them), SimilarityTransform,
    warp, tqdm, DetectSpots, dilation and plt bind names that no cell reads. *)
Theorem names_are_bound_before_read :
  unbound_reads builtins (program SeqFISH.cells) = []
  /\ never_read (program SeqFISH.cells)
     = [ "os"; "product"; "skimage"; "skimage"; "SimilarityTransform"; "warp"; "tqdm";
         "DetectSpots"; "dilation"; "plt" ].
Proof. split; vm_compute; reflexivity. Qed.

(** ** What the notebook computes from what *)

(** Identify what a stack made earlier holds. *)
Ltac read_stack Hv :=
  repeat rewrite <- app_assoc in Hv; simpl app in Hv;
  repeat rewrite length_app in Hv; simpl length in Hv;
  repeat rewrite <- Nat.add_assoc in Hv; simpl Nat.add in Hv;
  first [ rewrite list_lookup_middle in Hv by reflexivity
        | rewrite lookup_nth_after in Hv ];
  injection Hv as <-.

Section FlowFacts.
Context `{Libraries}.

Lemma do_local_search_flow e stack h i d h' :
  do_local_search e stack h = Ok ((i, d), h') ->
  h' = h
  /\ exists v, h !! stack = Some v
       /\ LocalSearchBlobDetector v = Ok i
       /\ decode_per_round_max (codebook e) (fillna i 0) = Ok d.
Proof.
  unfold do_local_search. intros Hrun.
  bind_in Hrun i0 h1 Hi. apply detect_Ok in Hi as [-> (v & Hv & Hdet)].
  bind_in Hrun d0 h2 Hd. apply lift_Ok in Hd as [Hd ->].
  apply ret_Ok in Hrun as [[= <- <-] ->]. eauto 10.
Qed.

Lemma do_label_image_size c h l h' :
  do_label_image c h = Ok (l, h') -> Zlength (decoded_image c) = 2273600.
Proof.
  unfold do_label_image. intros Hrun.
  bind_in Hrun a h1 Ha. apply lift_Ok in Ha as [Ha _].
  unfold np_reshape in Ha. change (foldr Z.mul 1 [1; 1; 29; 280; 280]) with 2273600 in Ha.
  destruct (Z.eqb_spec (Zlength (decoded_image c)) 2273600) as [Heq|_];
    [exact Heq | discriminate Ha].
Qed.

Lemma do_correlation_Ok (pixel_decoded decoded : DecodedIntensityTable) (r : Correlation) :
  do_correlation pixel_decoded decoded = Ok r ->
  In "nan" (target pixel_decoded) /\ In "nan" (target decoded).
Proof.
  intros Hrun.
  destruct (in_dec string_dec "nan" (target pixel_decoded)) as [Hp|Hp];
    [destruct (in_dec string_dec "nan" (target decoded)) as [Hl|Hl]; [tauto|]|];
    unfold do_correlation in Hrun;
    rewrite correlation_inputs_without_nan in Hrun by tauto; discriminate Hrun.
Qed.

(** The run of the notebook, cell by cell. *)
Lemma notebook_run h0 sn h' :
  notebook h0 = Ok (sn, h') ->
  exists v_img v_bc v_sc v_bl,
    data_SeqFISH true = Ok (exp sn)
    /\ get_image (exp sn) "fov_000" "primary" = Ok v_img
    /\ WhiteTophat v_img = Ok v_bc
    /\ Clip v_bc = Ok v_sc
    /\ LocalSearchBlobDetector (masked stack_dtype v_sc) = Ok (intensities sn)
    /\ decode_per_round_max (codebook (exp sn)) (fillna (intensities sn) 0)
       = Ok (decoded sn)
    /\ GaussianLowPass (masked stack_dtype v_sc) = Ok v_bl
    /\ PixelSpotDecoder (codebook (exp sn)) v_bl = Ok (pixel_decoded sn, ccdr sn)
    /\ Zlength (decoded_image (ccdr sn)) = 2273600
    /\ printed sn = do_spot_counts (pixel_decoded sn) (decoded sn)
    /\ do_correlation (pixel_decoded sn) (decoded sn) = Ok (correlation sn).
Proof.
  unfold notebook. intros Hrun.
  bind_in Hrun e h1 He. apply lift_Ok in He as [He ->].
  bind_in Hrun l_img h2 Himg. apply do_image_Ok in Himg as (v_img & Hget & -> & ->).
  bind_in Hrun l_bg h3 Hbg. apply do_background_Ok in Hbg as (w1 & v_bg & Hv & Hopen & -> & ->).
  clear Hv.
  bind_in Hrun l_bc h4 Hbc. apply do_white_tophat_Ok in Hbc as (w2 & v_bc & Hv & Hwth & -> & ->).
  read_stack Hv.
  bind_in Hrun l_sc h5 Hsc. apply do_clip_Ok in Hsc as (w3 & v_sc & Hv & Hclip & -> & ->).
  read_stack Hv.
  bind_in Hrun u h6 Hd. apply display_Ok in Hd as ->.
  bind_in Hrun l_cl h7 Hcl. apply do_residual_Ok in Hcl as (w4 & Hv & -> & ->).
  read_stack Hv.
  bind_in Hrun u1 h8 Hd. apply display_Ok in Hd as ->.
  bind_in Hrun r h9 Hls. destruct r as [ints dec].
  apply do_local_search_flow in Hls as (-> & w5 & Hv & Hdet & Hdec).
  read_stack Hv.
  bind_in Hrun u2 h10 Hd. apply display_Ok in Hd as ->.
  bind_in Hrun l_bl h11 Hbl. apply do_gaussian_Ok in Hbl as (w6 & v_bl & Hv & Hglp & -> & ->).
  read_stack Hv.
  bind_in Hrun r h12 Hpd. destruct r as [pdec cc].
  unfold do_pixel_decoder in Hpd. apply detect_Ok in Hpd as (-> & w7 & Hv & Hpsd).
  read_stack Hv.
  bind_in Hrun l_lab h13 Hlab. pose proof (do_label_image_size _ _ _ _ Hlab) as Hsize.
  clear Hlab.
  bind_in Hrun corr h14 Hcorr. apply lift_Ok in Hcorr as [Hcorr ->].
  apply ret_Ok in Hrun as [-> ->]. simpl.
  exists v_img, v_bc, v_sc, v_bl. repeat split; assumption || reflexivity.
Qed.

End FlowFacts.

(** When the notebook has run, the seven stacks it has bound are seven
    different objects, none of them an object that was there before, and the
    heap holds exactly these seven more: no two names of the notebook reach
    the same stack. *)
Theorem stacks_do_not_alias `{Libraries} (h0 h' : list (list pixel)) (sn : session) :
  notebook h0 = Ok (sn, h') ->
  List.NoDup [ img sn; background sn; background_corrected sn; scaled sn; clipped sn;
               blurred sn; label_image sn ]
  /\ List.Forall (fun l => h0 !! l = None)
       [ img sn; background sn; background_corrected sn; scaled sn; clipped sn;
         blurred sn; label_image sn ]
  /\ length h' = (length h0 + 7)%nat.
Proof.
  intros Hrun.
  apply notebook_heap in Hrun
    as (v_img & v_bg & v_bc & v_sc & v_bl & v_lab & _ & _ & _ & _ & _
        & -> & -> & -> & -> & -> & -> & -> & ->).
  split; [|split].
  - repeat constructor; simpl; intuition lia.
  - repeat constructor; apply lookup_ge_None; lia.
  - rewrite length_app. reflexivity.
Qed.

Lemma stacks_do_not_alias_witness :
  List.NoDup [ img example_session; background example_session;
               background_corrected example_session; scaled example_session;
               clipped example_session; blurred example_session;
               label_image example_session ]
  /\ List.Forall (fun l => @nil (list pixel) !! l = None)
       [ img example_session; background example_session;
         background_corrected example_session; scaled example_session;
         clipped example_session; blurred example_session;
         label_image example_session ]
  /\ length example_heap = (length (@nil (list pixel)) + 7)%nat.
Proof.
  apply (@stacks_do_not_alias example_libraries [] example_heap example_session).
  vm_compute. reflexivity.
Defined.

(** When the notebook has run, what it reports comes from the field of view
    alone through one chain: the local search detector ran on the values of
    the image after white tophat, clip and masked store, its intensities with
    NaN filled by 0 were decoded against the experiment's codebook, the pixel
    decoder ran with that codebook on the Gaussian blur of the same masked
    values, and the two numbers printed and the correlation are those of the
    two decoded tables.  The background estimate and the label image enter
    nowhere. *)
Theorem notebook_data_flow `{Libraries} (h0 h' : list (list pixel)) (sn : session) :
  notebook h0 = Ok (sn, h') ->
  exists v_img v_bc v_sc v_bl,
    data_SeqFISH true = Ok (exp sn)
    /\ get_image (exp sn) "fov_000" "primary" = Ok v_img
    /\ WhiteTophat v_img = Ok v_bc
    /\ Clip v_bc = Ok v_sc
    /\ LocalSearchBlobDetector (masked stack_dtype v_sc) = Ok (intensities sn)
    /\ decode_per_round_max (codebook (exp sn)) (fillna (intensities sn) 0)
       = Ok (decoded sn)
    /\ GaussianLowPass (masked stack_dtype v_sc) = Ok v_bl
    /\ PixelSpotDecoder (codebook (exp sn)) v_bl = Ok (pixel_decoded sn, ccdr sn)
    /\ printed sn
       = (spots_detected (target (pixel_decoded sn)), spots_detected (target (decoded sn)))
    /\ do_correlation (pixel_decoded sn) (decoded sn) = Ok (correlation sn).
Proof.
  intros Hrun.
  apply notebook_run in Hrun
    as (v_img & v_bc & v_sc & v_bl & He & Hget & Hwth & Hclip & Hdet & Hdec & Hglp & Hpsd
        & _ & Hprint & Hcorr).
  exists v_img, v_bc, v_sc, v_bl. repeat split; assumption.
Qed.

Lemma notebook_data_flow_witness :
  @LocalSearchBlobDetector example_libraries example_clipped
  = Ok (intensities example_session)
  /\ @do_correlation example_libraries
       (pixel_decoded example_session) (decoded example_session)
     = Ok (correlation example_session).
Proof.
  destruct (@notebook_data_flow example_libraries [] example_heap example_session)
    as (v_img & v_bc & v_sc & v_bl & _ & _ & _ & _ & _ & _ & _ & _ & _ & Hcorr).
  - vm_compute. reflexivity.
  - split; [reflexivity | exact Hcorr].
Defined.

(** The notebook runs to its end only on data of one kind: the decoded image of
    the pixel decoder has 2273600 values, and each of the two detectors has
    left at least one entry labelled 'nan'. *)
Theorem notebook_runs_only_if `{Libraries} (h0 h' : list (list pixel)) (sn : session) :
  notebook h0 = Ok (sn, h') ->
  Zlength (decoded_image (ccdr sn)) = 2273600
  /\ In "nan" (target (pixel_decoded sn))
  /\ In "nan" (target (decoded sn)).
Proof.
  intros Hrun.
  apply notebook_run in Hrun
    as (v_img & v_bc & v_sc & v_bl & _ & _ & _ & _ & _ & _ & _ & _ & Hsize & _ & Hcorr).
  split; [exact Hsize|]. exact (do_correlation_Ok _ _ _ Hcorr).
Qed.

Lemma notebook_runs_only_if_witness :
  Zlength (@decoded_image example_libraries (ccdr example_session)) = 2273600
  /\ In "nan" (@target example_libraries (pixel_decoded example_session))
  /\ In "nan" (@target example_libraries (decoded example_session)).
Proof.
  apply (@notebook_runs_only_if example_libraries [] example_heap example_session).
  vm_compute. reflexivity.
Defined.
